(** * PriceHound: the log-indexing wizard's pricing pipeline

    A shallow embedding of the computation core of the log-indexing wizard
    (a Svelte component) and of the price helpers of [$lib/utils]:
    product look-up in the catalog, parsing of scraped price texts, the
    derived quantities, the cost roll-up, and the items handed to the quote.

    JavaScript numbers are IEEE 754 binary64 values, so they are embedded as
    Rocq's primitive [float]s: [*], [/], [+] and [>] are the very operations
    the script runs, with their rounding, infinities and NaN. *)

From Stdlib Require Import ZArith List String Ascii Bool Lia Floats.
Import ListNotations.

Set Warnings "-inexact-float".

(** ** The JavaScript built-ins the component relies on *)

Module JS.

Local Open Scope float_scope.

(** *** Numbers *)

(** Truthiness of a number: [0], [-0] and [NaN] are falsy. *)
Definition truthy (x : float) : bool := negb (is_nan x || is_zero x).

(** [x || y] on numbers. *)
Definition or_else (x y : float) : float := if truthy x then x else y.

(** [x > 0]. *)
Definition gt0 (x : float) : bool := 0 <? x.

(** [n] doublings of a positive number. *)
Fixpoint shl (n : nat) (p : positive) : positive :=
  match n with
  | O => p
  | S n' => xO (shl n' p)
  end.

(** The float of a positive integer below [2^53]: the mantissa is brought
    to 53 binary digits, as the binary64 format stores it. *)
Definition float_of_pos (p : positive) : float :=
  let d := Z.pos (digits2_pos p) in
  SF2Prim (S754_finite false (shl (Z.to_nat (prec - d)) p) (d - prec)).

(** [Math.ceil]: non-finite values, zeros and integral values are returned
    as they are; a value strictly between -1 and 0 gives [-0]; otherwise
    the smallest integer not below the argument. *)
Definition Math_ceil (x : float) : float :=
  match Prim2SF x with
  | S754_finite s m e =>
      if (0 <=? e)%Z then x
      else
        let d := (2 ^ (- e))%Z in
        let q := (Z.pos m / d)%Z in
        if (Z.pos m mod d =? 0)%Z then x
        else if s then
          match q with
          | Z.pos p => - float_of_pos p
          | _ => neg_zero
          end
        else float_of_pos (Z.to_pos (q + 1))
  | _ => x
  end.

(** The binary64 value nearest to [n / d] (ties to even), for [0 <= n]:
    the quotient is taken with at least 56 binary digits and a sticky
    last bit, then rounded once. *)
Definition round_ratio (n : Z) (d : positive) : spec_float :=
  if (n <=? 0)%Z then S754_zero false
  else
    let s := Z.max 0 (Z.log2 (Z.pos d) - Z.log2 n + 56) in
    let q := ((n * 2 ^ s) / Z.pos d)%Z in
    let r := ((n * 2 ^ s) mod Z.pos d)%Z in
    let m := (2 * q + (if (r =? 0)%Z then 0 else 1))%Z in
    binary_normalize prec emax m (- (s + 1)) false.

(** *** Strings *)

Local Open Scope string_scope.

Definition is_digit (c : ascii) : bool :=
  let n := nat_of_ascii c in (48 <=? n)%nat && (n <=? 57)%nat.

(** The character class [[\d.]]. *)
Definition is_numch (c : ascii) : bool :=
  is_digit c || Ascii.eqb c "."%char.

(** Its complement, [[^\d.]]. *)
Definition not_numch (c : ascii) : bool := negb (is_numch c).

(** [String.prototype.includes]. *)
Fixpoint includes (s sub : string) : bool :=
  if prefix sub s then true
  else match s with
       | EmptyString => false
       | String _ s' => includes s' sub
       end.

Definition lower_char (c : ascii) : ascii :=
  let n := nat_of_ascii c in
  if (65 <=? n)%nat && (n <=? 90)%nat then ascii_of_nat (n + 32) else c.

(** [String.prototype.toLowerCase], on the ASCII letters; other
    characters are left as they are. *)
Fixpoint toLowerCase (s : string) : string :=
  match s with
  | EmptyString => EmptyString
  | String c s' => String (lower_char c) (toLowerCase s')
  end.

(** The longest prefix whose characters satisfy [f], and the rest. *)
Fixpoint span (f : ascii -> bool) (s : string) : string * string :=
  match s with
  | EmptyString => (EmptyString, EmptyString)
  | String c s' =>
      if f c then let (a, b) := span f s' in (String c a, b)
      else (EmptyString, s)
  end.

Fixpoint dropWhile (f : ascii -> bool) (s : string) : string :=
  match s with
  | EmptyString => EmptyString
  | String c s' => if f c then dropWhile f s' else s
  end.

(** [s.match(/[\d.]+/)]: the first maximal run of digits and points,
    [None] (JavaScript's [null]) when the text has neither. *)
Definition match_numeric (s : string) : option string :=
  match dropWhile not_numch s with
  | EmptyString => None
  | rest => Some (fst (span is_numch rest))
  end.

(** [s.replace(/[^\d.]/g, '')]: every character other than a digit or a
    point is deleted. *)
Fixpoint strip_non_numeric (s : string) : string :=
  match s with
  | EmptyString => EmptyString
  | String c s' =>
      if is_numch c then String c (strip_non_numeric s')
      else strip_non_numeric s'
  end.

(** The number written by a string of decimal digits. *)
Fixpoint digits_value (acc : Z) (s : string) : Z :=
  match s with
  | EmptyString => acc
  | String c s' =>
      digits_value (10 * acc + (Z.of_nat (nat_of_ascii c) - 48))%Z s'
  end.

(** The value of the decimal numeral [ip.fp]. *)
Definition decimal_value (ip fp : string) : float :=
  SF2Prim (round_ratio (digits_value 0 (ip ++ fp))
                       (Z.to_pos (10 ^ Z.of_nat (String.length fp)))).

(** The numeral a text of digits and points starts with: [digits],
    [digits.], [digits.digits] or [.digits], as the integer and the
    fraction digits. *)
Definition leading_numeral (s : string) : option (string * string) :=
  let (ip, rest) := span is_digit s in
  let fp :=
    match rest with
    | String c rest' =>
        if Ascii.eqb c "."%char then fst (span is_digit rest')
        else EmptyString
    | EmptyString => EmptyString
    end in
  match ip, fp with
  | EmptyString, EmptyString => None
  | _, _ => Some (ip, fp)
  end.

(** [parseFloat] on the arguments it receives here, texts of digits and
    points (the output of [match_numeric] or [strip_non_numeric]): the
    value, rounded once to binary64, of the longest prefix that is a
    decimal numeral, and [NaN] when there is none. Signs, exponents and
    white space, which such texts cannot hold, are left out. *)
Definition parseFloat (s : string) : float :=
  match leading_numeral s with
  | Some (ip, fp) => decimal_value ip fp
  | None => nan
  end.

(** [!s] for [s : string | null | undefined]. *)
Definition falsy_text (t : option string) : bool :=
  match t with
  | None => true
  | Some EmptyString => true
  | Some _ => false
  end.

End JS.

(** ** Classes of binary64 values, read off their [spec_float] form *)

Module Class.

(** Strictly positive: a positive finite value or [+Infinity]. *)
Definition pos_sf (f : spec_float) : bool :=
  match f with
  | S754_finite false _ _ | S754_infinity false => true
  | _ => false
  end.

(** Not below zero: a zero of either sign, or strictly positive. *)
Definition nonneg_sf (f : spec_float) : bool :=
  match f with
  | S754_zero _ | S754_finite false _ _ | S754_infinity false => true
  | _ => false
  end.

Definition zero_sf (f : spec_float) : bool :=
  match f with
  | S754_zero _ => true
  | _ => false
  end.

Definition nan_sf (f : spec_float) : bool :=
  match f with
  | S754_nan => true
  | _ => false
  end.

Definition finite_sf (f : spec_float) : bool :=
  match f with
  | S754_zero _ | S754_finite _ _ _ => true
  | _ => false
  end.

(** Non-negative, or not a number. *)
Definition nn (x : float) : Prop :=
  nonneg_sf (Prim2SF x) = true \/ Prim2SF x = S754_nan.

(** Zero, or not a number. *)
Definition zn (x : float) : Prop :=
  zero_sf (Prim2SF x) = true \/ Prim2SF x = S754_nan.


(** A whole number: a zero, or a finite value [m * 2^e] in which [2^-e]
    divides [m] when [e] is negative. *)
Definition whole_sf (f : spec_float) : bool :=
  match f with
  | S754_zero _ => true
  | S754_finite _ m e => (0 <=? e)%Z || (Z.pos m mod 2 ^ (- e) =? 0)%Z
  | _ => false
  end.

End Class.

Local Open Scope string_scope.
Local Open Scope float_scope.

(** ** [$lib/utils]: the shared price helpers *)

Module Utils.

(** [parsePrice]: absent, empty and ["-"] texts give 0; otherwise every
    character other than a digit or a point is deleted and the rest is
    read with [parseFloat], a falsy result ([NaN], [0]) giving 0. *)
Definition parsePrice (priceStr : option string) : float :=
  match priceStr with
  | None => 0
  | Some s =>
      if JS.falsy_text priceStr || String.eqb s "-" || String.eqb s EmptyString
      then 0
      else
        let cleaned := JS.strip_non_numeric s in
        JS.or_else (JS.parseFloat cleaned) 0
  end.

Definition isPercentagePrice (priceStr : option string) : bool :=
  match priceStr with
  | None => false
  | Some s => if JS.falsy_text priceStr then false else JS.includes s "%"
  end.

(** [parsePercentage]: as [parsePrice], but a text without ["%"] gives 0. *)
Definition parsePercentage (priceStr : option string) : float :=
  match priceStr with
  | None => 0
  | Some s =>
      if JS.falsy_text priceStr || negb (JS.includes s "%") then 0
      else
        let cleaned := JS.strip_non_numeric s in
        JS.or_else (JS.parseFloat cleaned) 0
  end.

End Utils.

(** ** [$lib/api]: the catalog records *)

Module Api.

(** Modelled from the spec: the [Product] type of [$lib/api], which is not
    among the sources. A catalog record has a name, a billing unit and
    price texts per billing cadence; the record below has the three fields
    the wizard reads, the price text being a string or [null]. *)
Record Product : Set := {
  product : string;
  billing_unit : string;
  billed_annually : option string
}.

End Api.

(** ** The log-indexing wizard *)

Module Wizard.

Import Api.

(** [retentionDays: 3 | 7 | 15 | 30]. *)
Inductive RetentionDays : Set := D3 | D7 | D15 | D30.

(** The decimal text a retention window is interpolated as. *)
Definition days_text (d : RetentionDays) : string :=
  match d with
  | D3 => "3"
  | D7 => "7"
  | D15 => "15"
  | D30 => "30"
  end.

(** The template literal [`${retentionDays}-day`]. *)
Definition retention_token (d : RetentionDays) : string :=
  days_text d ++ "-day".

(** The component's props and user inputs. The number fields are bound to
    number inputs. A missing number reaches the uses below ([*], [/], [>],
    [Math.ceil]) as [null] or [undefined], which they convert to 0 or to
    [NaN]; both are values of [float]. *)
Record State : Set := {
  products : list Product;
  ingestedLogsGB : float;
  avgLogSizeKB : float;
  indexingPercentage : float;
  retentionDays : RetentionDays;
  enableFlexStarter : bool;
  enableFlexStorage : bool;
  enableForwarding : bool;
  flexStarterEvents : float;
  flexStorageEvents : float;
  forwardingGB : float
}.

(** [{ product: Product; quantity: number }]. *)
Record QuoteItem : Set := {
  item_product : Product;
  quantity : float
}.

(** [parsePrice], the wizard's own: the first run of digits and points is
    read with [parseFloat]; an absent or empty text, or one without such a
    run, gives 0. *)
Definition parsePrice (priceStr : option string) : float :=
  match priceStr with
  | None => 0
  | Some s =>
      if JS.falsy_text priceStr then 0
      else
        match JS.match_numeric s with
        | Some m0 => JS.parseFloat m0
        | None => 0
        end
  end.

(** [p?.billed_annually]. *)
Definition billed_annually_of (p : option Product) : option string :=
  match p with
  | Some r => billed_annually r
  | None => None
  end.

(** The predicates handed to [products.find]. *)
Definition is_ingestion (p : Product) : bool :=
  JS.includes (JS.toLowerCase (product p)) "logs"
  && JS.includes (JS.toLowerCase (product p)) "ingestion".

Definition is_indexed (d : RetentionDays) (p : Product) : bool :=
  JS.includes (JS.toLowerCase (product p)) "indexed log events"
  && JS.includes (JS.toLowerCase (billing_unit p)) (retention_token d).

Definition is_named (name : string) (p : Product) : bool :=
  String.eqb (product p) name.

Section Reactive.

Variable st : State.

(** Calculations *)
Definition totalLogsPerMonth : float :=
  (ingestedLogsGB st * 1024 * 1024) / avgLogSizeKB st.
Definition indexedLogsCount : float :=
  totalLogsPerMonth * (indexingPercentage st / 100).
Definition indexedLogsInMillions : float :=
  indexedLogsCount / 1000000.

(** Products lookup *)
Definition ingestionProduct : option Product :=
  find is_ingestion (products st).
Definition indexedProduct : option Product :=
  find (is_indexed (retentionDays st)) (products st).
Definition flexStarterProduct : option Product :=
  find (is_named "Flex Logs Starter") (products st).
Definition flexStorageProduct : option Product :=
  find (is_named "Flex Logs Storage") (products st).
Definition forwardingProduct : option Product :=
  find (is_named "Logs - Forwarding to Custom Destinations") (products st).

Definition ingestionPrice : float :=
  parsePrice (billed_annually_of ingestionProduct).
Definition indexedPrice : float :=
  parsePrice (billed_annually_of indexedProduct).
Definition flexStarterPrice : float :=
  parsePrice (billed_annually_of flexStarterProduct).
Definition flexStoragePrice : float :=
  parsePrice (billed_annually_of flexStorageProduct).
Definition forwardingPrice : float :=
  parsePrice (billed_annually_of forwardingProduct).

Definition ingestionCost : float := ingestedLogsGB st * ingestionPrice.
Definition indexedCost : float := indexedLogsInMillions * indexedPrice.
Definition flexStarterCost : float :=
  if enableFlexStarter st then flexStarterEvents st * flexStarterPrice
  else 0.
Definition flexStorageCost : float :=
  if enableFlexStorage st then flexStorageEvents st * flexStoragePrice
  else 0.
Definition forwardingCost : float :=
  if enableForwarding st then forwardingGB st * forwardingPrice else 0.
Definition additionalCost : float :=
  flexStarterCost + flexStorageCost + forwardingCost.
Definition totalMonthlyCost : float :=
  ingestionCost + indexedCost + additionalCost.

(** The yearly figure of the cost summary, [totalMonthlyCost * 12]. *)
Definition yearlyCost : float := totalMonthlyCost * 12.

(** The condition of the "Some products not found" notice, which is
    also the one that disables the add-to-quote button. *)
Definition productsNotFound : bool :=
  match ingestionProduct, indexedProduct with
  | Some _, Some _ => false
  | _, _ => true
  end.

(** [if (p && q > 0) items.push({ product: p, quantity: Math.ceil(q) })]:
    the array after the statement. *)
Definition push_if (p : option Product) (q : float)
           (items : list QuoteItem) : list QuoteItem :=
  match p with
  | Some r =>
      if JS.gt0 q
      then items ++ [{| item_product := r; quantity := JS.Math_ceil q |}]
      else items
  | None => items
  end.

(** The [items] array [addToQuote] has built when it reaches its last
    line. *)
Definition buildItems : list QuoteItem :=
  let items := [] in
  let items := push_if ingestionProduct (ingestedLogsGB st) items in
  let items := push_if indexedProduct indexedLogsInMillions items in
  let items :=
    if enableFlexStarter st
    then push_if flexStarterProduct (flexStarterEvents st) items
    else items in
  let items :=
    if enableFlexStorage st
    then push_if flexStorageProduct (flexStorageEvents st) items
    else items in
  let items :=
    if enableForwarding st
    then push_if forwardingProduct (forwardingGB st) items
    else items in
  items.

End Reactive.

(** What the component does to the outside: calls of the [onAddToQuote]
    prop. *)
Inductive Effect : Set :=
| OnAddToQuote (items : list QuoteItem).

(** [addToQuote], as the calls it makes, in order. *)
Definition addToQuote (st : State) : list Effect :=
  let items := buildItems st in
  if (0 <? List.length items)%nat then [OnAddToQuote items] else [].

(** The component's initial inputs, over a given catalog. *)
Definition initial (catalog : list Product) : State := {|
  products := catalog;
  ingestedLogsGB := 100;
  avgLogSizeKB := 2;
  indexingPercentage := 15;
  retentionDays := D15;
  enableFlexStarter := false;
  enableFlexStorage := false;
  enableForwarding := false;
  flexStarterEvents := 10;
  flexStorageEvents := 50;
  forwardingGB := 20
|}.

(** The inputs after the user retypes an add-on's usage count. *)
Definition set_flexStarterEvents (n : float) (st : State) : State := {|
  products := products st;
  ingestedLogsGB := ingestedLogsGB st;
  avgLogSizeKB := avgLogSizeKB st;
  indexingPercentage := indexingPercentage st;
  retentionDays := retentionDays st;
  enableFlexStarter := enableFlexStarter st;
  enableFlexStorage := enableFlexStorage st;
  enableForwarding := enableForwarding st;
  flexStarterEvents := n;
  flexStorageEvents := flexStorageEvents st;
  forwardingGB := forwardingGB st
|}.

Definition set_flexStorageEvents (n : float) (st : State) : State := {|
  products := products st;
  ingestedLogsGB := ingestedLogsGB st;
  avgLogSizeKB := avgLogSizeKB st;
  indexingPercentage := indexingPercentage st;
  retentionDays := retentionDays st;
  enableFlexStarter := enableFlexStarter st;
  enableFlexStorage := enableFlexStorage st;
  enableForwarding := enableForwarding st;
  flexStarterEvents := flexStarterEvents st;
  flexStorageEvents := n;
  forwardingGB := forwardingGB st
|}.

Definition set_forwardingGB (n : float) (st : State) : State := {|
  products := products st;
  ingestedLogsGB := ingestedLogsGB st;
  avgLogSizeKB := avgLogSizeKB st;
  indexingPercentage := indexingPercentage st;
  retentionDays := retentionDays st;
  enableFlexStarter := enableFlexStarter st;
  enableFlexStorage := enableFlexStorage st;
  enableForwarding := enableForwarding st;
  flexStarterEvents := flexStarterEvents st;
  flexStorageEvents := flexStorageEvents st;
  forwardingGB := n
|}.

End Wizard.

(** ** The specification's reading of the pipeline

    Definitions written after the specification's sentences, to be compared
    with the component's. *)

Module Spec.

Import Api Wizard.

(** The billed categories, in the precedence of the quote. *)
Inductive Category : Set :=
| Ingestion | IndexedEvents | FlexStarter | FlexStorage | Forwarding.

Definition precedence : list Category :=
  [Ingestion; IndexedEvents; FlexStarter; FlexStorage; Forwarding].


Section Pipeline.

Variable st : State.

(** 4.3, steps 1 to 3. *)
Definition totalEntries (ingestedGB avgEntryKB : float) : float :=
  (ingestedGB * 1024 * 1024) / avgEntryKB.
Definition indexedEntries (total indexingPercent : float) : float :=
  total * (indexingPercent / 100).
Definition indexedInMillions (indexed : float) : float :=
  indexed / 1000000.

Definition matched (c : Category) : option Product :=
  match c with
  | Ingestion => ingestionProduct st
  | IndexedEvents => indexedProduct st
  | FlexStarter => flexStarterProduct st
  | FlexStorage => flexStorageProduct st
  | Forwarding => forwardingProduct st
  end.

(** The mandatory categories have no switch. *)
Definition enabled (c : Category) : bool :=
  match c with
  | Ingestion | IndexedEvents => true
  | FlexStarter => enableFlexStarter st
  | FlexStorage => enableFlexStorage st
  | Forwarding => enableForwarding st
  end.

(** The number a category is billed on, before the switch is looked
    at. *)
Definition usage (c : Category) : float :=
  match c with
  | Ingestion => ingestedLogsGB st
  | IndexedEvents => indexedLogsInMillions st
  | FlexStarter => flexStarterEvents st
  | FlexStorage => flexStorageEvents st
  | Forwarding => forwardingGB st
  end.

(** 4.3, step 4: a disabled add-on is billed on 0, an enabled one on
    its usage count unchanged. *)
Definition billing_quantity (c : Category) : float :=
  if enabled c then usage c else 0.

Definition unit_price (c : Category) : float :=
  match c with
  | Ingestion => ingestionPrice st
  | IndexedEvents => indexedPrice st
  | FlexStarter => flexStarterPrice st
  | FlexStorage => flexStoragePrice st
  | Forwarding => forwardingPrice st
  end.

(** 4.4: quantity times unit price, a disabled add-on exactly 0. *)
Definition category_cost (c : Category) : float :=
  if enabled c then usage c * unit_price c else 0.

(** 4.5: an item when the product matched and the billing quantity is
    strictly positive, with the ceiling of that quantity. *)
Definition item_for (p : option Product) (q : float) : list QuoteItem :=
  match p with
  | Some r =>
      if JS.gt0 q
      then [{| item_product := r; quantity := JS.Math_ceil q |}]
      else []
  | None => []
  end.

Definition category_items (c : Category) : list QuoteItem :=
  item_for (matched c) (billing_quantity c).

Definition buildItems : list QuoteItem :=
  flat_map category_items precedence.

End Pipeline.

(** 4.1: the criteria of a look-up, either substrings of the product
    name, with an optional substring of the billing unit, or the exact
    product name. *)
Inductive Criteria : Set :=
| NameParts (parts : list string) (unit_part : option string)
| ExactName (name : string).

(** Containment with the letter case ignored. *)
Definition contains_ci (hay needle : string) : bool :=
  JS.includes (JS.toLowerCase hay) (JS.toLowerCase needle).

(** The criteria as 4.1 words them: the name parts are looked for with
    the letter case ignored, the billing-unit part as it is written. *)
Definition satisfies_as_written (c : Criteria) (p : Product) : bool :=
  match c with
  | NameParts parts u =>
      forallb (contains_ci (product p)) parts
      && match u with
         | Some t => JS.includes (billing_unit p) t
         | None => true
         end
  | ExactName n => String.eqb (product p) n
  end.

(** The criteria with the billing-unit part looked for with the letter
    case ignored too. *)
Definition satisfies (c : Criteria) (p : Product) : bool :=
  match c with
  | NameParts parts u =>
      forallb (contains_ci (product p)) parts
      && match u with
         | Some t => contains_ci (billing_unit p) t
         | None => true
         end
  | ExactName n => String.eqb (product p) n
  end.

(** The criteria of the five look-ups. *)
Definition criteria_of (d : RetentionDays) (c : Category) : Criteria :=
  match c with
  | Ingestion => NameParts ["logs"; "ingestion"] None
  | IndexedEvents =>
      NameParts ["indexed log events"] (Some (retention_token d))
  | FlexStarter => ExactName "Flex Logs Starter"
  | FlexStorage => ExactName "Flex Logs Storage"
  | Forwarding => ExactName "Logs - Forwarding to Custom Destinations"
  end.

(** 4.2 leaves thousands separators out of the number: the digits of the
    whole part, a comma that stands before a digit being passed over, and
    the text that follows them. *)
Fixpoint read_whole (s : string) : string * string :=
  match s with
  | EmptyString => (EmptyString, EmptyString)
  | String c r =>
      if JS.is_digit c then
        let (a, b) := read_whole r in (String c a, b)
      else if Ascii.eqb c ","%char then
        match r with
        | String d _ =>
            if JS.is_digit d then read_whole r else (EmptyString, s)
        | EmptyString => (EmptyString, s)
        end
      else (EmptyString, s)
  end.

(** The digits after a decimal point, when the text starts with one. *)
Definition fraction_of (s : string) : string :=
  match s with
  | String c r =>
      if Ascii.eqb c "."%char then fst (JS.span JS.is_digit r)
      else EmptyString
  | EmptyString => EmptyString
  end.

(** 4.2: the first maximal run of digits and a single decimal point, as
    its whole and fraction digits. The run starts at the first digit of the
    text, or at the first point that has a digit after it; what stands
    before it (currency symbols, words) and after it (unit suffixes,
    words) is left out, and so are the thousands separators in it. [None]
    when the text has no digit. *)
Fixpoint first_number (s : string) : option (string * string) :=
  match s with
  | EmptyString => None
  | String c r =>
      if JS.is_digit c then
        let (ip, rest) := read_whole s in Some (ip, fraction_of rest)
      else if Ascii.eqb c "."%char then
        match fst (JS.span JS.is_digit r) with
        | EmptyString => first_number r
        | fp => Some (EmptyString, fp)
        end
      else first_number r
  end.


(** Every character of a text satisfies [f]. *)
Fixpoint all_chars (f : ascii -> bool) (s : string) : bool :=
  match s with
  | EmptyString => true
  | String c s' => f c && all_chars f s'
  end.

End Spec.

(** A small catalog for the examples. *)
Definition sample_catalog : list Api.Product := [
  {| Api.product := "Logs - Ingestion";
     Api.billing_unit := "Per ingested GB";
     Api.billed_annually := Some "$0.10" |};
  {| Api.product := "Logs - Indexed Log Events (15-day retention)";
     Api.billing_unit := "Per 1M log events, 15-day retention";
     Api.billed_annually := Some "$1.70" |};
  {| Api.product := "Flex Logs Starter";
     Api.billing_unit := "Per 1M events stored";
     Api.billed_annually := Some "$0.60" |};
  {| Api.product := "Logs - Forwarding to Custom Destinations";
     Api.billing_unit := "Per GB forwarded";
     Api.billed_annually := Some "$0.25" |}
].


(** A catalog whose indexed-events record writes the retention window with
    a capital letter. *)
Definition capitalised_catalog : list Api.Product := [
  {| Api.product := "Logs - Ingestion";
     Api.billing_unit := "Per ingested GB";
     Api.billed_annually := Some "$0.10" |};
  {| Api.product := "Logs - Indexed Log Events";
     Api.billing_unit := "Per 1M log events (15-Day retention)";
     Api.billed_annually := Some "$1.70" |}
].

(** A catalog without a 30-day record, and the inputs asking for 30 days. *)
Definition thirty_days : Wizard.State := {|
  Wizard.products := sample_catalog;
  Wizard.ingestedLogsGB := 100;
  Wizard.avgLogSizeKB := 2;
  Wizard.indexingPercentage := 15;
  Wizard.retentionDays := Wizard.D30;
  Wizard.enableFlexStarter := false;
  Wizard.enableFlexStorage := false;
  Wizard.enableForwarding := false;
  Wizard.flexStarterEvents := 10;
  Wizard.flexStorageEvents := 50;
  Wizard.forwardingGB := 20
|}.

(** A catalog whose ingestion price is a sentence, not a number. *)
Definition unpriced_catalog : list Api.Product := [
  {| Api.product := "Logs - Ingestion";
     Api.billing_unit := "Per ingested GB";
     Api.billed_annually := Some "Contact us." |};
  {| Api.product := "Logs - Indexed Log Events (15-day retention)";
     Api.billing_unit := "Per 1M log events, 15-day retention";
     Api.billed_annually := Some "$1.70" |}
].

(** The initial inputs with an entry size of zero typed in. *)
Definition zero_entry_size : Wizard.State := {|
  Wizard.products := sample_catalog;
  Wizard.ingestedLogsGB := 100;
  Wizard.avgLogSizeKB := 0;
  Wizard.indexingPercentage := 15;
  Wizard.retentionDays := Wizard.D15;
  Wizard.enableFlexStarter := false;
  Wizard.enableFlexStorage := false;
  Wizard.enableForwarding := false;
  Wizard.flexStarterEvents := 10;
  Wizard.flexStorageEvents := 50;
  Wizard.forwardingGB := 20
|}.




(** The initial inputs with the three add-ons switched on. *)
Definition sample_all_on : Wizard.State := {|
  Wizard.products := sample_catalog;
  Wizard.ingestedLogsGB := 100;
  Wizard.avgLogSizeKB := 2;
  Wizard.indexingPercentage := 15;
  Wizard.retentionDays := Wizard.D15;
  Wizard.enableFlexStarter := true;
  Wizard.enableFlexStorage := true;
  Wizard.enableForwarding := true;
  Wizard.flexStarterEvents := 10;
  Wizard.flexStorageEvents := 50;
  Wizard.forwardingGB := 20
|}.

(** ** The wizard's step navigation *)

Module Steps.

(** An entry of the [steps] array; the icon, which is only drawn, is left
    out. *)
Record Step : Set := {
  id : string;
  title : string;
  description : string
}.

Definition steps : list Step := [
  {| id := "volume"; title := "Log Volume";
     description := "How much data?" |};
  {| id := "retention"; title := "Retention";
     description := "How long to keep?" |};
  {| id := "indexing"; title := "Indexing";
     description := "What to search?" |};
  {| id := "extras"; title := "Extras";
     description := "Additional options" |}
].

(** A count or an array index as a JavaScript number. *)
Definition number_of_nat (n : nat) : float :=
  of_uint63 (Uint63Axioms.of_Z (Z.of_nat n)).

(** [steps.length]. *)
Definition steps_length : float := number_of_nat (List.length steps).

(** [nextStep], [prevStep] and [goToStep], as the value of [currentStep]
    after the call. *)
Definition nextStep (currentStep : float) : float :=
  if currentStep <? steps_length - 1 then currentStep + 1 else currentStep.

Definition prevStep (currentStep : float) : float :=
  if 0 <? currentStep then currentStep - 1 else currentStep.

Definition goToStep (index : float) (currentStep : float) : float := index.

(** The clicks that reach the three functions: the Next and Back buttons,
    and the button the [each] block draws for the step of index [i]. *)
Inductive Click : Set :=
| Next
| Back
| StepButton (i : nat).

(** The [each] block draws a button for the indices of [steps] only. *)
Definition drawn (c : Click) : bool :=
  match c with
  | StepButton i => (i <? List.length steps)%nat
  | _ => true
  end.

Definition click (currentStep : float) (c : Click) : float :=
  match c with
  | Next => nextStep currentStep
  | Back => prevStep currentStep
  | StepButton i => goToStep (number_of_nat i) currentStep
  end.

(** [currentStep] after a series of clicks, from its initial value 0. *)
Definition after (clicks : list Click) : float := fold_left click clicks 0.

(** The panel the [if]/[else if] chain on [currentStep === 0], ..., [=== 3]
    shows; [None] when no branch is taken. *)
Definition panel (currentStep : float) : option nat :=
  if currentStep =? 0 then Some 0%nat
  else if currentStep =? 1 then Some 1%nat
  else if currentStep =? 2 then Some 2%nat
  else if currentStep =? 3 then Some 3%nat
  else None.

(** The width of the progress bar, in per cent. *)
Definition progress (currentStep : float) : float :=
  ((currentStep + 1) / steps_length) * 100.

(** The values [currentStep] is meant to take, the indices of [steps]. *)
Definition in_range (s : float) : Prop := s = 0 \/ s = 1 \/ s = 2 \/ s = 3.

(** The Next button is drawn before the last step, the add-to-quote button
    on it. *)
Definition shows_next (currentStep : float) : bool :=
  currentStep <? steps_length - 1.

End Steps.

(** ** [$lib/rum]: the tracking of user actions *)

Module Rum.

(** The [datadogRum] export of the RUM package. *)
Inductive DatadogRum : Set := datadogRum.

(** The values a tracking context holds. *)
Inductive Value : Set :=
| VString (s : string)
| VNumber (x : float)
| VBoolean (b : bool).

(** [Record<string, unknown>], as the keys in the order they are written. *)
Definition Context : Set := list (string * Value).

(** What a call does to the outside. *)
Inductive Effect : Set :=
| Import
| Warn (message : string)
| AddAction (name : string) (context : Context).

(** How the dynamic [import] of the package ends. *)
Inductive Outcome : Set := Resolved | Rejected.

(** [getRum], run to completion: the value returned, the module variable
    [rumInstance] afterwards, and the effects, in order. [outcome] is how
    the import ends if it is started. *)
Definition getRum (browser : bool) (outcome : Outcome)
    (rumInstance : option DatadogRum)
  : option DatadogRum * option DatadogRum * list Effect :=
  if negb browser then (None, rumInstance, [])
  else
    match rumInstance with
    | None =>
        match outcome with
        | Resolved => (Some datadogRum, Some datadogRum, [Import])
        | Rejected =>
            (None, None, [Import; Warn "Failed to load Datadog RUM:"])
        end
    | Some r => (Some r, rumInstance, [])
    end.

(** [const rum = await getRum(); rum?.addAction(name, context)]. *)
Definition track (name : string) (context : Context) (browser : bool)
    (outcome : Outcome) (rumInstance : option DatadogRum)
  : option DatadogRum * list Effect :=
  let '(rum, rumInstance', effects) := getRum browser outcome rumInstance in
  match rum with
  | Some _ => (rumInstance', (effects ++ [AddAction name context])%list)
  | None => (rumInstance', effects)
  end.

Definition trackQuoteShared (region : string) (itemCount : float)
    (protected : bool) :=
  track "quote_shared"
    [("region", VString region); ("itemCount", VNumber itemCount);
     ("protected", VBoolean protected)].

Definition trackJsonImported (region : string) (itemCount : float) :=
  track "json_imported"
    [("region", VString region); ("itemCount", VNumber itemCount)].

Definition trackJsonExported (region : string) (itemCount : float) :=
  track "json_exported"
    [("region", VString region); ("itemCount", VNumber itemCount)].

Definition trackCsvExported (region : string) (itemCount : float) :=
  track "csv_exported"
    [("region", VString region); ("itemCount", VNumber itemCount)].

Definition trackPdfDownloaded (region : string) (itemCount : float) :=
  track "pdf_downloaded"
    [("region", VString region); ("itemCount", VNumber itemCount)].

Definition trackQuoteOpened (region : string) (quoteId : string) :=
  track "quote_opened"
    [("region", VString region); ("quoteId", VString quoteId)].

Definition trackPricingSync (region : string) :=
  track "pricing_sync" [("region", VString region)].

(** A call of one of the seven exported functions. *)
Inductive Call : Set :=
| QuoteShared (region : string) (itemCount : float) (protected : bool)
| JsonImported (region : string) (itemCount : float)
| JsonExported (region : string) (itemCount : float)
| CsvExported (region : string) (itemCount : float)
| PdfDownloaded (region : string) (itemCount : float)
| QuoteOpened (region : string) (quoteId : string)
| PricingSync (region : string).

Definition call (c : Call) :=
  match c with
  | QuoteShared r n p => trackQuoteShared r n p
  | JsonImported r n => trackJsonImported r n
  | JsonExported r n => trackJsonExported r n
  | CsvExported r n => trackCsvExported r n
  | PdfDownloaded r n => trackPdfDownloaded r n
  | QuoteOpened r q => trackQuoteOpened r q
  | PricingSync r => trackPricingSync r
  end.

(** The action a call reports once the package is loaded. *)
Definition action_of (c : Call) : Effect :=
  match c with
  | QuoteShared r n p =>
      AddAction "quote_shared"
        [("region", VString r); ("itemCount", VNumber n);
         ("protected", VBoolean p)]
  | JsonImported r n =>
      AddAction "json_imported"
        [("region", VString r); ("itemCount", VNumber n)]
  | JsonExported r n =>
      AddAction "json_exported"
        [("region", VString r); ("itemCount", VNumber n)]
  | CsvExported r n =>
      AddAction "csv_exported"
        [("region", VString r); ("itemCount", VNumber n)]
  | PdfDownloaded r n =>
      AddAction "pdf_downloaded"
        [("region", VString r); ("itemCount", VNumber n)]
  | QuoteOpened r q =>
      AddAction "quote_opened"
        [("region", VString r); ("quoteId", VString q)]
  | PricingSync r => AddAction "pricing_sync" [("region", VString r)]
  end.

(** Calls made one after the other, each awaited before the next starts,
    every call with the outcome its import would have: the module variable
    at the end and all the effects. *)
Fixpoint run (browser : bool) (calls : list (Call * Outcome))
    (rumInstance : option DatadogRum)
  : option DatadogRum * list Effect :=
  match calls with
  | [] => (rumInstance, [])
  | (c, outcome) :: rest =>
      let '(rumInstance', effects) := call c browser outcome rumInstance in
      let '(final, effects') := run browser rest rumInstance' in
      (final, (effects ++ effects')%list)
  end.

Definition rejected (x : Call * Outcome) : bool :=
  match snd x with
  | Rejected => true
  | Resolved => false
  end.

(** The calls whose import is rejected before the first one that resolves,
    and the calls from that one on. *)
Fixpoint failures (calls : list (Call * Outcome)) : list (Call * Outcome) :=
  match calls with
  | [] => []
  | x :: rest => if rejected x then x :: failures rest else []
  end.

Fixpoint from_first_load (calls : list (Call * Outcome))
  : list (Call * Outcome) :=
  match calls with
  | [] => []
  | x :: rest => if rejected x then from_first_load rest else calls
  end.

End Rum.

(** * Facts about binary64 arithmetic *)

Module FloatFacts.

Import Class.

Lemma Prim2SF_0 : Prim2SF 0 = S754_zero false.
Proof. reflexivity. Qed.

Lemma gt0_spec x : JS.gt0 x = pos_sf (Prim2SF x).
Proof.
  unfold JS.gt0. rewrite ltb_spec, Prim2SF_0.
  destruct (Prim2SF x) as [[|]|[|]| |[|] m e]; reflexivity.
Qed.

Lemma le0_spec x :
  (x <=? 0) = negb (pos_sf (Prim2SF x)) && negb (nan_sf (Prim2SF x)).
Proof.
  rewrite leb_spec, Prim2SF_0.
  destruct (Prim2SF x) as [[|]|[|]| |[|] m e]; reflexivity.
Qed.

Lemma ge0_spec x : (0 <=? x) = nonneg_sf (Prim2SF x).
Proof.
  rewrite leb_spec, Prim2SF_0.
  destruct (Prim2SF x) as [[|]|[|]| |[|] m e]; reflexivity.
Qed.

Lemma is_zero_spec x : is_zero x = zero_sf (Prim2SF x).
Proof.
  unfold is_zero. rewrite eqb_spec.
  change (Prim2SF zero) with (S754_zero false).
  destruct (Prim2SF x) as [[|]|[|]| |[|] m e]; reflexivity.
Qed.

Lemma is_nan_spec x : is_nan x = nan_sf (Prim2SF x).
Proof.
  unfold is_nan. rewrite eqb_spec.
  destruct (Prim2SF x) as [[|]|[|]| |[|] m e]; try reflexivity;
    unfold SFeqb, SFcompare;
    rewrite Z.compare_refl, Pos.compare_cont_refl; reflexivity.
Qed.

Lemma is_finite_spec x : is_finite x = finite_sf (Prim2SF x).
Proof.
  unfold is_finite, is_infinity. rewrite is_nan_spec, eqb_spec, abs_spec.
  change (Prim2SF infinity) with (S754_infinity false).
  destruct (Prim2SF x) as [[|]|[|]| |[|] m e]; reflexivity.
Qed.


(** Binary digits *)

Lemma digits2_bounds p :
  (2 ^ (Z.pos (digits2_pos p) - 1) <= Z.pos p < 2 ^ Z.pos (digits2_pos p))%Z.
Proof.
  induction p as [p IH|p IH|]; cbn [digits2_pos].
  - rewrite Pos2Z.inj_succ.
    replace (Z.succ (Z.pos (digits2_pos p)) - 1)%Z
      with (Z.succ (Z.pos (digits2_pos p) - 1))%Z by lia.
    rewrite !Z.pow_succ_r by lia. lia.
  - rewrite Pos2Z.inj_succ.
    replace (Z.succ (Z.pos (digits2_pos p)) - 1)%Z
      with (Z.succ (Z.pos (digits2_pos p) - 1))%Z by lia.
    rewrite !Z.pow_succ_r by lia. lia.
  - cbn. lia.
Qed.

Lemma digits2_le p n :
  (0 <= n)%Z -> (Z.pos p < 2 ^ n)%Z -> (Z.pos (digits2_pos p) <= n)%Z.
Proof.
  intros Hn Hp.
  destruct (Z_le_gt_dec (Z.pos (digits2_pos p)) n) as [H|H]; [exact H|].
  exfalso.
  pose proof (digits2_bounds p) as [Hlo _].
  assert (2 ^ n <= 2 ^ (Z.pos (digits2_pos p) - 1))%Z
    by (apply Z.pow_le_mono_r; lia).
  lia.
Qed.

Lemma digits2_shl n p :
  Z.pos (digits2_pos (JS.shl n p)) = (Z.pos (digits2_pos p) + Z.of_nat n)%Z.
Proof.
  induction n as [|n IH]; cbn [JS.shl digits2_pos].
  - lia.
  - rewrite Pos2Z.inj_succ, IH. lia.
Qed.

(** A valid finite float has a mantissa below [2^53]. *)
Lemma valid_mantissa s m e :
  valid_binary (S754_finite s m e) = true -> (Z.pos m < 2 ^ 53)%Z.
Proof.
  cbn [SpecFloat.valid_binary]. unfold bounded, canonical_mantissa, fexp.
  intros H. apply andb_prop in H as [H _]. apply Z.eqb_eq in H.
  pose proof (digits2_bounds m) as [_ Hhi].
  assert (Z.pos (digits2_pos m) <= 53)%Z by (unfold prec in H; lia).
  eapply Z.lt_le_trans; [exact Hhi|].
  apply Z.pow_le_mono_r; lia.
Qed.

(** [float_of_pos] builds a positive finite float. *)
Lemma Prim2SF_float_of_pos p :
  (Z.pos p < 2 ^ 53)%Z ->
  exists m e, Prim2SF (JS.float_of_pos p) = S754_finite false m e.
Proof.
  intros Hp. unfold JS.float_of_pos.
  eexists _, _. apply Prim2SF_SF2Prim.
  cbn [SpecFloat.valid_binary]. unfold bounded, canonical_mantissa, fexp.
  assert (Hd : (Z.pos (digits2_pos p) <= 53)%Z)
    by (apply digits2_le; [lia|exact Hp]).
  rewrite digits2_shl. unfold prec, emin, emax.
  rewrite Z2Nat.id by lia.
  apply andb_true_intro; split.
  - apply Z.eqb_eq. lia.
  - apply Z.leb_le. lia.
Qed.

(** The ceiling of a positive number is positive. *)
Lemma ceil_pos x : JS.gt0 x = true -> JS.gt0 (JS.Math_ceil x) = true.
Proof.
  intros Hx. pose proof Hx as Hx'. rewrite gt0_spec in Hx'.
  unfold JS.Math_ceil.
  pose proof (Prim2SF_valid x) as Hv.
  destruct (Prim2SF x) as [sz|si| |s m e] eqn:E; try exact Hx.
  destruct s; [discriminate|].
  destruct (0 <=? e)%Z eqn:He; [exact Hx|].
  destruct (Z.pos m mod 2 ^ (- e) =? 0)%Z; [exact Hx|].
  apply Z.leb_gt in He.
  apply valid_mantissa in Hv.
  assert (Hq : (0 <= Z.pos m / 2 ^ (- e) < 2 ^ 52)%Z).
  { split.
    - apply Z.div_pos; [lia|]. apply Z.pow_pos_nonneg; lia.
    - apply Z.div_lt_upper_bound; [apply Z.pow_pos_nonneg; lia|].
      assert (2 ^ 1 <= 2 ^ (- e))%Z by (apply Z.pow_le_mono_r; lia).
      change (2 ^ 53)%Z with (2 ^ 1 * 2 ^ 52)%Z in Hv.
      change (2 ^ 1)%Z with 2%Z in *.
      assert (0 < 2 ^ 52)%Z by (apply Z.pow_pos_nonneg; lia).
      nia. }
  destruct (Prim2SF_float_of_pos (Z.to_pos (Z.pos m / 2 ^ (- e) + 1)))
    as (m' & e' & Hm').
  { rewrite Z2Pos.id by lia.
    change (2 ^ 53)%Z with (2 * 2 ^ 52)%Z. lia. }
  rewrite gt0_spec, Hm'. reflexivity.
Qed.

Lemma gt0_not_le0 x : JS.gt0 x = true -> (x <=? 0) = false.
Proof.
  rewrite gt0_spec, le0_spec. intros ->. reflexivity.
Qed.


(** Signs through [*] and [/] *)

Lemma round_aux_nn mx ex lx :
  nonneg_sf (binary_round_aux prec emax false mx ex lx) = true
  \/ binary_round_aux prec emax false mx ex lx = S754_nan.
Proof.
  unfold binary_round_aux.
  destruct (shr_fexp prec emax mx ex lx) as [mrs' e'].
  destruct (shr_fexp prec emax _ e' loc_Exact) as [mrs'' e''].
  destruct (shr_m mrs''); [left; reflexivity| |right; reflexivity].
  destruct (e'' <=? emax - prec)%Z; left; reflexivity.
Qed.

Lemma mul_nn x y : nn x -> nn y -> nn (x * y).
Proof.
  unfold nn. rewrite mul_spec. unfold SF64mul.
  destruct (Prim2SF x) as [[|]|[|]| |[|] mx ex];
    destruct (Prim2SF y) as [[|]|[|]| |[|] my ey];
    cbn [SFmul nonneg_sf xorb];
    intros [Hx|Hx] [Hy|Hy]; try discriminate; auto using round_aux_nn.
Qed.

Lemma div_nn x y : nn x -> JS.gt0 y = true -> nn (x / y).
Proof.
  unfold nn. rewrite gt0_spec, div_spec. unfold SF64div.
  destruct (Prim2SF x) as [[|]|[|]| |[|] mx ex];
    destruct (Prim2SF y) as [[|]|[|]| |[|] my ey];
    cbn [SFdiv nonneg_sf pos_sf xorb];
    intros [Hx|Hx] Hy; try discriminate; auto.
  destruct (SFdiv_core_binary prec emax (Z.pos mx) ex (Z.pos my) ey)
    as [[mz ez] lz].
  apply round_aux_nn.
Qed.




Lemma mul_nan_l x y : Prim2SF x = S754_nan -> Prim2SF (x * y) = S754_nan.
Proof. intros H. rewrite mul_spec, H. reflexivity. Qed.

Lemma div_nan_l x y : Prim2SF x = S754_nan -> Prim2SF (x / y) = S754_nan.
Proof. intros H. rewrite div_spec, H. reflexivity. Qed.

Lemma ge0_nn x : (0 <=? x) = true -> nn x.
Proof. rewrite ge0_spec. left. assumption. Qed.


Lemma nn_ge0 x : nn x -> is_nan x = false -> (0 <=? x) = true.
Proof.
  rewrite ge0_spec, is_nan_spec. intros [H|H]; [auto|].
  rewrite H. discriminate.
Qed.

Lemma zn_zero x : zn x -> is_nan x = false -> is_zero x = true.
Proof.
  rewrite is_zero_spec, is_nan_spec. intros [H|H]; [auto|].
  rewrite H. discriminate.
Qed.

(** A finite number times zero is zero. *)
Lemma mul_0_r x : is_finite x = true -> is_zero (x * 0) = true.
Proof.
  rewrite is_finite_spec, is_zero_spec, mul_spec, Prim2SF_0.
  destruct (Prim2SF x) as [[|]|[|]| |[|] mx ex]; try discriminate;
    reflexivity.
Qed.

End FloatFacts.

(** * The quote items: the component against the specification *)

Module ItemFacts.

Import Api Wizard.
Local Open Scope list_scope.

Lemma push_if_item p q items :
  push_if p q items = items ++ Spec.item_for p q.
Proof.
  unfold push_if, Spec.item_for.
  destruct p as [r|]; [destruct (JS.gt0 q)|]; now rewrite ?app_nil_r.
Qed.

Lemma gt0_0 : JS.gt0 0 = false.
Proof. reflexivity. Qed.

Lemma category_items_enabled st c :
  Spec.category_items st c =
  if Spec.enabled st c
  then Spec.item_for (Spec.matched st c) (Spec.usage st c)
  else [].
Proof.
  unfold Spec.category_items, Spec.billing_quantity, Spec.item_for.
  destruct (Spec.enabled st c), (Spec.matched st c) as [r|];
    rewrite ?gt0_0; reflexivity.
Qed.

(** The array the component builds is the one the specification
    describes. *)
Lemma buildItems_spec st : buildItems st = Spec.buildItems st.
Proof.
  unfold Spec.buildItems, Spec.precedence. cbn [flat_map].
  rewrite !category_items_enabled.
  cbn [Spec.enabled Spec.matched Spec.usage].
  unfold buildItems.
  destruct (enableFlexStarter st), (enableFlexStorage st),
    (enableForwarding st);
    rewrite !push_if_item, ?app_nil_r, <- ?app_assoc; reflexivity.
Qed.

Lemma In_item_for p q it :
  In it (Spec.item_for p q) <->
  exists r, p = Some r /\ JS.gt0 q = true
            /\ it = {| item_product := r; quantity := JS.Math_ceil q |}.
Proof.
  unfold Spec.item_for. destruct p as [r|].
  - destruct (JS.gt0 q) eqn:G; cbn [In]; split.
    + intros [<-|[]]. eauto.
    + intros (r' & [= <-] & _ & ->). now left.
    + intros [].
    + intros (r' & _ & [=] & _).
  - cbn [In]. split; [intros []|intros (r' & [=] & _)].
Qed.

Lemma gt0_billing_quantity st c :
  JS.gt0 (Spec.billing_quantity st c) = true ->
  Spec.enabled st c = true
  /\ Spec.billing_quantity st c = Spec.usage st c.
Proof.
  unfold Spec.billing_quantity. destruct (Spec.enabled st c); [auto|].
  rewrite gt0_0. discriminate.
Qed.

Lemma In_buildItems st it :
  In it (buildItems st) <->
  exists c, In it (Spec.category_items st c).
Proof.
  rewrite buildItems_spec. unfold Spec.buildItems.
  rewrite in_flat_map. split.
  - intros (c & _ & H). eauto.
  - intros (c & H). exists c. split; [|exact H].
    destruct c; cbn; auto 10.
Qed.

End ItemFacts.

(** * The properties of the specification *)

Import Api Wizard.

(** ** The built-ins on sample arguments *)

Module BuiltinExamples.

Example ceil_fraction : JS.Math_ceil 7.86432 = 8.
Proof. reflexivity. Qed.

Example ceil_integer : JS.Math_ceil 100 = 100.
Proof. reflexivity. Qed.

Example ceil_small : JS.Math_ceil 5e-324 = 1.
Proof. reflexivity. Qed.

Example ceil_negative : JS.Math_ceil (-1.5) = -1.
Proof. reflexivity. Qed.

Example ceil_minus_zero : JS.Math_ceil (-0.5) = neg_zero.
Proof. reflexivity. Qed.

Example ceil_large :
  JS.Math_ceil 4503599627370495.5 = 4503599627370496.
Proof. reflexivity. Qed.

Example ceil_infinity : JS.Math_ceil infinity = infinity.
Proof. reflexivity. Qed.

Example parseFloat_price : JS.parseFloat "1.70" = 1.7.
Proof. reflexivity. Qed.

Example parseFloat_two_points : JS.parseFloat "1.2.3" = 1.2.
Proof. reflexivity. Qed.

Example parseFloat_leading_point : JS.parseFloat ".5" = 0.5.
Proof. reflexivity. Qed.

Example parseFloat_trailing_point : JS.parseFloat "5." = 5.
Proof. reflexivity. Qed.

Example parseFloat_point : JS.parseFloat "." = nan.
Proof. reflexivity. Qed.

Example parseFloat_rounds_once :
  JS.parseFloat "0.30000000000000004" = 0.1 + 0.2
  /\ JS.parseFloat "9007199254740993" = 9007199254740992.
Proof. split; reflexivity. Qed.

Example match_numeric_price : JS.match_numeric "$1.70" = Some "1.70".
Proof. reflexivity. Qed.

Example match_numeric_sentence : JS.match_numeric "Contact us." = Some ".".
Proof. reflexivity. Qed.

Example match_numeric_dash : JS.match_numeric "-" = None.
Proof. reflexivity. Qed.

Example includes_lower :
  JS.includes (JS.toLowerCase "Logs - Ingestion") "ingestion" = true.
Proof. reflexivity. Qed.

End BuiltinExamples.

(** C3. For every usage input the derived quantities are the formulas of
    the specification: the total entries are
    [(ingestedGB * 1024 * 1024) / avgEntryKB], the indexed entries the total
    times [indexingPercent / 100], the indexed millions the indexed entries
    divided by 1,000,000, each the plain binary64 operation with no rounding
    step in between. For 100 GB and 2 KB the total is 52,428,800; with 15
    per cent the indexed entries are 7,864,320 and the indexed millions
    7.864320. *)
Theorem derived_quantities_formulas :
  (forall st,
      totalLogsPerMonth st
      = Spec.totalEntries (ingestedLogsGB st) (avgLogSizeKB st)
      /\ indexedLogsCount st
         = Spec.indexedEntries (totalLogsPerMonth st) (indexingPercentage st)
      /\ indexedLogsInMillions st
         = Spec.indexedInMillions (indexedLogsCount st))
  /\ (forall st,
         ingestedLogsGB st = 100 -> avgLogSizeKB st = 2 ->
         totalLogsPerMonth st = 52428800
         /\ (indexingPercentage st = 15 ->
             indexedLogsCount st = 7864320
             /\ indexedLogsInMillions st = 7.86432)).
Proof.
  split.
  - intros st. repeat split.
  - intros st Hg Ha.
    unfold indexedLogsInMillions, indexedLogsCount, totalLogsPerMonth.
    rewrite Hg, Ha. split; [reflexivity|].
    intros ->. split; reflexivity.
Qed.

Lemma derived_quantities_formulas_witness :
  totalLogsPerMonth (initial sample_catalog) = 52428800
  /\ indexedLogsCount (initial sample_catalog) = 7864320
  /\ indexedLogsInMillions (initial sample_catalog) = 7.86432.
Proof.
  destruct derived_quantities_formulas as [_ H].
  destruct (H (initial sample_catalog) eq_refl eq_refl) as [H1 H2].
  destruct (H2 eq_refl) as [H3 H4].
  exact (conj H1 (conj H3 H4)).
Defined.

(** C1. For every state of the wizard, the items it builds are the
    per-category items in the order ingestion, indexed events, Flex Starter,
    Flex Storage, forwarding. A category has an item exactly when its
    product matched and its billing quantity, 0 for a disabled add-on, is
    strictly positive, and the item's quantity is the ceiling of that
    quantity. So every item built has a matched product, a quantity that is
    strictly positive and not [<= 0], and an enabled category. *)
Theorem buildItems_correct (st : State) :
  buildItems st = flat_map (Spec.category_items st) Spec.precedence
  /\ (forall c it,
         In it (Spec.category_items st c) <->
         exists p,
           Spec.matched st c = Some p
           /\ JS.gt0 (Spec.billing_quantity st c) = true
           /\ it = {| item_product := p;
                      quantity := JS.Math_ceil (Spec.billing_quantity st c) |})
  /\ (forall it,
         In it (buildItems st) ->
         JS.gt0 (quantity it) = true
         /\ (quantity it <=? 0) = false
         /\ exists c,
             Spec.enabled st c = true
             /\ Spec.matched st c = Some (item_product it)
             /\ JS.gt0 (Spec.usage st c) = true
             /\ quantity it = JS.Math_ceil (Spec.usage st c)).
Proof.
  split; [apply ItemFacts.buildItems_spec|].
  split; [intros c it; apply ItemFacts.In_item_for|].
  intros it Hin.
  apply ItemFacts.In_buildItems in Hin as (c & Hin).
  apply ItemFacts.In_item_for in Hin as (p & Hm & Hq & ->).
  cbn [quantity item_product].
  pose proof (FloatFacts.ceil_pos _ Hq) as Hc.
  split; [exact Hc|]. split; [now apply FloatFacts.gt0_not_le0|].
  destruct (ItemFacts.gt0_billing_quantity _ _ Hq) as [He Hu].
  exists c. rewrite <- Hu. auto.
Qed.

Lemma buildItems_correct_witness :
  let it := {| item_product :=
                 {| product := "Logs - Indexed Log Events (15-day retention)";
                    billing_unit := "Per 1M log events, 15-day retention";
                    billed_annually := Some "$1.70" |};
               quantity := 8 |} in
  In it (buildItems sample_all_on)
  /\ JS.gt0 (quantity it) = true
  /\ (quantity it <=? 0) = false.
Proof.
  intros it.
  assert (Hin : In it (buildItems sample_all_on))
    by (vm_compute; right; left; reflexivity).
  split; [exact Hin|].
  destruct (buildItems_correct sample_all_on) as (_ & _ & H).
  destruct (H it Hin) as (H1 & H2 & _).
  exact (conj H1 H2).
Defined.

Module CostFacts.

Lemma price_unmatched st c :
  Spec.matched st c = None -> Spec.unit_price st c = 0.
Proof.
  destruct c; cbn [Spec.matched Spec.unit_price];
    unfold ingestionPrice, indexedPrice, flexStarterPrice,
      flexStoragePrice, forwardingPrice;
    intros ->; reflexivity.
Qed.

End CostFacts.

(** C2. For every state of the wizard, the cost of a category is its
    quantity times its unit price; a category whose product did not match
    has the unit price 0; a disabled add-on costs exactly 0, so the monthly
    total does not depend on the usage count typed for it; the monthly total
    is the sum of the five category costs, and the yearly figure is the
    monthly total times 12. *)
Theorem cost_rollup (st : State) :
  (ingestionCost st = ingestedLogsGB st * ingestionPrice st
   /\ indexedCost st = indexedLogsInMillions st * indexedPrice st
   /\ flexStarterCost st = Spec.category_cost st Spec.FlexStarter
   /\ flexStorageCost st = Spec.category_cost st Spec.FlexStorage
   /\ forwardingCost st = Spec.category_cost st Spec.Forwarding)
  /\ (forall c,
         Spec.enabled st c = true ->
         Spec.category_cost st c = Spec.usage st c * Spec.unit_price st c)
  /\ (forall c, Spec.matched st c = None -> Spec.unit_price st c = 0)
  /\ (forall c, Spec.enabled st c = false -> Spec.category_cost st c = 0)
  /\ totalMonthlyCost st
     = Spec.category_cost st Spec.Ingestion
       + Spec.category_cost st Spec.IndexedEvents
       + (Spec.category_cost st Spec.FlexStarter
          + Spec.category_cost st Spec.FlexStorage
          + Spec.category_cost st Spec.Forwarding)
  /\ yearlyCost st = totalMonthlyCost st * 12
  /\ (enableFlexStarter st = false ->
      forall n,
        totalMonthlyCost (set_flexStarterEvents n st) = totalMonthlyCost st)
  /\ (enableFlexStorage st = false ->
      forall n,
        totalMonthlyCost (set_flexStorageEvents n st) = totalMonthlyCost st)
  /\ (enableForwarding st = false ->
      forall n,
        totalMonthlyCost (set_forwardingGB n st) = totalMonthlyCost st).
Proof.
  split; [repeat split|].
  split; [intros c Hc; unfold Spec.category_cost; now rewrite Hc|].
  split; [apply CostFacts.price_unmatched|].
  split; [intros c Hc; unfold Spec.category_cost; now rewrite Hc|].
  split; [reflexivity|]. split; [reflexivity|].
  repeat split; intros H n;
    unfold totalMonthlyCost, additionalCost, flexStarterCost,
      flexStorageCost, forwardingCost;
    cbn [enableFlexStarter enableFlexStorage enableForwarding
         set_flexStarterEvents set_flexStorageEvents set_forwardingGB];
    rewrite H; reflexivity.
Qed.

Lemma cost_rollup_witness :
  Spec.unit_price (initial sample_catalog) Spec.FlexStorage = 0
  /\ Spec.category_cost (initial sample_catalog) Spec.Forwarding = 0
  /\ Spec.category_cost sample_all_on Spec.Forwarding
     = 20 * Spec.unit_price sample_all_on Spec.Forwarding
  /\ totalMonthlyCost (set_flexStarterEvents 1000 (initial sample_catalog))
     = totalMonthlyCost (initial sample_catalog).
Proof.
  destruct (cost_rollup (initial sample_catalog))
    as (_ & _ & Hp & Hd & _ & _ & Hs & _).
  destruct (cost_rollup sample_all_on) as (_ & He & _).
  split; [exact (Hp Spec.FlexStorage eq_refl)|].
  split; [exact (Hd Spec.Forwarding eq_refl)|].
  split; [exact (He Spec.Forwarding eq_refl)|].
  exact (Hs eq_refl 1000).
Defined.

(** C10. Finalizing calls [onAddToQuote] at most once, with the items
    built, and only when there is at least one item; when no category
    qualifies (nothing matched, or no positive quantity) it is not called
    at all. *)
Theorem addToQuote_calls (st : State) :
  (List.length (addToQuote st) <= 1)%nat
  /\ (buildItems st = [] -> addToQuote st = [])
  /\ (buildItems st <> [] -> addToQuote st = [OnAddToQuote (buildItems st)])
  /\ (forall items,
         In (OnAddToQuote items) (addToQuote st) ->
         items = buildItems st /\ items <> [])
  /\ ((forall c,
          Spec.matched st c = None
          \/ JS.gt0 (Spec.billing_quantity st c) = false) ->
      addToQuote st = []).
Proof.
  assert (Hnil : buildItems st = [] -> addToQuote st = []).
  { unfold addToQuote. intros ->. reflexivity. }
  assert (Hcons : buildItems st <> [] ->
                  addToQuote st = [OnAddToQuote (buildItems st)]).
  { unfold addToQuote. destruct (buildItems st); [congruence|reflexivity]. }
  split.
  { unfold addToQuote. destruct (buildItems st); cbn; lia. }
  split; [exact Hnil|]. split; [exact Hcons|]. split.
  - intros items. unfold addToQuote.
    destruct (buildItems st) as [|it l] eqn:E; cbn; [intros []|].
    intros [[= <-]|[]]. split; [reflexivity|discriminate].
  - intros H. apply Hnil. rewrite ItemFacts.buildItems_spec.
    unfold Spec.buildItems, Spec.precedence. cbn [flat_map].
    unfold Spec.category_items, Spec.item_for.
    repeat match goal with
           | |- context [Spec.matched st ?c] =>
               destruct (H c) as [-> | ->];
               [|destruct (Spec.matched st c)]
           end; reflexivity.
Qed.

Lemma addToQuote_calls_witness :
  addToQuote (initial []) = []
  /\ addToQuote sample_all_on = [OnAddToQuote (buildItems sample_all_on)].
Proof.
  destruct (addToQuote_calls (initial [])) as (_ & H1 & _).
  destruct (addToQuote_calls sample_all_on) as (_ & _ & H2 & _).
  split; [apply H1; reflexivity|].
  apply H2. vm_compute. discriminate.
Defined.

Module MatchFacts.

Local Open Scope list_scope.

Lemma find_first (f : Product -> bool) catalog p :
  find f catalog = Some p <->
  exists before after,
    catalog = before ++ p :: after
    /\ f p = true
    /\ forall x, In x before -> f x = false.
Proof.
  induction catalog as [|a l IH]; cbn [find].
  - split; [discriminate|].
    intros (b & a' & H & _). now destruct b.
  - destruct (f a) eqn:Fa.
    + split.
      * intros [= <-]. exists [], l.
        repeat split; auto. intros x [].
      * intros (b & a' & H & Hp & Hb). destruct b as [|b0 b].
        -- cbn in H. now injection H as -> _.
        -- cbn in H. injection H as <- _.
           rewrite (Hb a) in Fa by now left. discriminate.
    + rewrite IH. split.
      * intros (b & a' & -> & Hp & Hb). exists (a :: b), a'.
        repeat split; auto. intros x [<-|Hx]; auto.
      * intros (b & a' & H & Hp & Hb). destruct b as [|b0 b].
        -- cbn in H. injection H as <- _. congruence.
        -- cbn in H. injection H as <- ->. exists b, a'.
           repeat split; auto. intros x Hx. apply Hb. now right.
Qed.

Lemma find_absent (f : Product -> bool) catalog :
  find f catalog = None <-> forall x, In x catalog -> f x = false.
Proof.
  split; [apply find_none|].
  induction catalog as [|a l IH]; cbn [find]; [reflexivity|].
  intros H. rewrite (H a) by now left.
  apply IH. intros x Hx. apply H. now right.
Qed.

Lemma find_same (f g : Product -> bool) catalog :
  (forall p, f p = g p) -> find f catalog = find g catalog.
Proof.
  intros H. induction catalog as [|a l IH]; cbn [find]; [reflexivity|].
  now rewrite H, IH.
Qed.

Lemma lower_token d :
  JS.toLowerCase (retention_token d) = retention_token d.
Proof. destruct d; reflexivity. Qed.

Lemma satisfies_lookup d c p :
  Spec.satisfies (Spec.criteria_of d c) p =
  match c with
  | Spec.Ingestion => is_ingestion p
  | Spec.IndexedEvents => is_indexed d p
  | Spec.FlexStarter => is_named "Flex Logs Starter" p
  | Spec.FlexStorage => is_named "Flex Logs Storage" p
  | Spec.Forwarding =>
      is_named "Logs - Forwarding to Custom Destinations" p
  end.
Proof.
  destruct c; cbn [Spec.satisfies Spec.criteria_of forallb];
    unfold Spec.contains_ci, is_ingestion, is_indexed, is_named;
    rewrite ?lower_token, ?andb_true_r; reflexivity.
Qed.

Lemma matched_find st c :
  Spec.matched st c
  = find (Spec.satisfies (Spec.criteria_of (retentionDays st) c))
         (products st).
Proof.
  destruct c; cbn [Spec.matched];
    unfold ingestionProduct, indexedProduct, flexStarterProduct,
      flexStorageProduct, forwardingProduct;
    apply find_same; intros p; now rewrite satisfies_lookup.
Qed.

Lemma indexed_absent st :
  (forall p, In p (products st) ->
             JS.includes (JS.toLowerCase (billing_unit p))
                         (retention_token (retentionDays st)) = false) ->
  indexedProduct st = None.
Proof.
  intros H. apply find_absent. intros p Hp.
  unfold is_indexed. rewrite (H p Hp). apply andb_false_r.
Qed.

End MatchFacts.

(** C7, amended. Each of the five look-ups returns the first record of
    the catalog, in its given order, that satisfies the criteria of the
    look-up: all the name parts are contained in the product name and the
    billing-unit part, when there is one, in the billing unit, both with the
    letter case ignored, or the product name is exactly the given one. The
    result is absent exactly when no record satisfies them, and with several
    satisfying records the first one is returned. *)
Theorem matcher_first_satisfying :
  (forall st c,
      Spec.matched st c
      = find (Spec.satisfies (Spec.criteria_of (retentionDays st) c))
             (products st))
  /\ (forall (f : Product -> bool) catalog p,
         find f catalog = Some p <->
         exists before after,
           catalog = (before ++ p :: after)%list
           /\ f p = true
           /\ forall x, In x before -> f x = false)
  /\ (forall (f : Product -> bool) catalog,
         find f catalog = None <-> forall x, In x catalog -> f x = false).
Proof.
  split; [exact MatchFacts.matched_find|].
  split; [exact MatchFacts.find_first|exact MatchFacts.find_absent].
Qed.

Lemma matcher_first_satisfying_witness :
  find (Spec.satisfies (Spec.criteria_of D15 Spec.IndexedEvents))
       sample_catalog
  = nth_error sample_catalog 1
  /\ find (Spec.satisfies (Spec.criteria_of D15 Spec.FlexStorage))
          sample_catalog
     = None.
Proof.
  destruct matcher_first_satisfying as (_ & Hsome & Hnone).
  split.
  - apply Hsome.
    exists (firstn 1 sample_catalog), (skipn 2 sample_catalog).
    split; [reflexivity|]. split; [reflexivity|].
    intros x [<-|[]]. reflexivity.
  - apply Hnone. intros x Hx.
    repeat (destruct Hx as [<-|Hx]; [reflexivity|]). destruct Hx.
Defined.

Lemma matcher_as_written_counterexample :
  ~ (forall st c,
        Spec.matched st c
        = find (Spec.satisfies_as_written
                  (Spec.criteria_of (retentionDays st) c))
               (products st)).
Proof.
  intros H.
  specialize (H (initial capitalised_catalog) Spec.IndexedEvents).
  vm_compute in H. discriminate H.
Qed.

(** C6, amended. For every state in which no record's billing unit
    contains, the letter case ignored, the token of the retention window,
    the indexed-events product is absent, its unit price is 0, its cost is
    the indexed quantity times 0, which is 0 for every finite quantity, and
    the not-found notice is shown. The notice is shown exactly when the
    ingestion or the indexed-events product is absent, and depends on the
    catalog and the retention window only, not on the add-ons. *)
Theorem missing_retention_variant :
  (forall st,
      (forall p, In p (products st) ->
                 JS.includes (JS.toLowerCase (billing_unit p))
                             (retention_token (retentionDays st)) = false) ->
      indexedProduct st = None
      /\ indexedPrice st = 0
      /\ indexedCost st = indexedLogsInMillions st * 0
      /\ (is_finite (indexedLogsInMillions st) = true ->
          is_zero (indexedCost st) = true)
      /\ productsNotFound st = true)
  /\ (forall st,
         productsNotFound st = true <->
         ingestionProduct st = None \/ indexedProduct st = None)
  /\ (forall st st',
         products st = products st' ->
         retentionDays st = retentionDays st' ->
         productsNotFound st = productsNotFound st').
Proof.
  split; [|split].
  - intros st H. pose proof (MatchFacts.indexed_absent st H) as Hn.
    assert (Hp : indexedPrice st = 0)
      by (unfold indexedPrice; rewrite Hn; reflexivity).
    split; [exact Hn|]. split; [exact Hp|].
    unfold indexedCost. rewrite Hp. split; [reflexivity|]. split.
    + apply FloatFacts.mul_0_r.
    + unfold productsNotFound. rewrite Hn.
      now destruct (ingestionProduct st).
  - intros st. unfold productsNotFound.
    destruct (ingestionProduct st), (indexedProduct st);
      split; auto; try discriminate; intros [H|H]; discriminate H.
  - intros st st' Hp Hd.
    unfold productsNotFound, ingestionProduct, indexedProduct.
    now rewrite Hp, Hd.
Qed.

Lemma missing_retention_variant_witness :
  indexedProduct thirty_days = None
  /\ is_zero (indexedCost thirty_days) = true
  /\ productsNotFound thirty_days = true
  /\ productsNotFound sample_all_on = productsNotFound (initial sample_catalog).
Proof.
  destruct missing_retention_variant as (H & _ & Hsame).
  destruct (H thirty_days) as (H1 & _ & _ & H2 & H3).
  { intros p Hp.
    repeat (destruct Hp as [<-|Hp]; [reflexivity|]). destruct Hp. }
  split; [exact H1|]. split; [apply H2; reflexivity|]. split; [exact H3|].
  apply Hsame; reflexivity.
Defined.

Lemma missing_retention_variant_counterexample :
  ~ (forall st,
        (forall p, In p (products st) ->
                   JS.includes (billing_unit p)
                               (retention_token (retentionDays st)) = false) ->
        indexedProduct st = None).
Proof.
  intros H. specialize (H (initial capitalised_catalog)).
  assert (Hn : indexedProduct (initial capitalised_catalog) = None).
  { apply H. intros p Hp.
    repeat (destruct Hp as [<-|Hp]; [reflexivity|]). destruct Hp. }
  vm_compute in Hn. discriminate Hn.
Qed.

Module QuantityFacts.

Import Class FloatFacts.

Lemma nn_const_1024 : nn 1024.
Proof. apply ge0_nn. reflexivity. Qed.

Lemma derived_nn st :
  (0 <=? ingestedLogsGB st) = true ->
  JS.gt0 (avgLogSizeKB st) = true ->
  (0 <=? indexingPercentage st) = true ->
  nn (totalLogsPerMonth st) /\ nn (indexedLogsCount st)
  /\ nn (indexedLogsInMillions st).
Proof.
  intros Hg Ha Hp.
  assert (Ht : nn (totalLogsPerMonth st)).
  { unfold totalLogsPerMonth. apply div_nn; [|exact Ha].
    repeat apply mul_nn; auto using ge0_nn, nn_const_1024. }
  assert (Hc : nn (indexedLogsCount st)).
  { unfold indexedLogsCount. apply mul_nn; [exact Ht|].
    apply div_nn; [now apply ge0_nn|reflexivity]. }
  split; [exact Ht|]. split; [exact Hc|].
  unfold indexedLogsInMillions. apply div_nn; [exact Hc|reflexivity].
Qed.




End QuantityFacts.

Module ParseFacts.

Lemma or_else_number x : is_nan (JS.or_else x 0) = false.
Proof.
  unfold JS.or_else, JS.truthy.
  destruct (is_nan x) eqn:E; cbn [orb negb]; [reflexivity|].
  destruct (is_zero x); cbn [negb]; [reflexivity|exact E].
Qed.

Lemma utils_parsePrice_number t : is_nan (Utils.parsePrice t) = false.
Proof.
  unfold Utils.parsePrice. destruct t as [s|]; [|reflexivity].
  destruct (_ || _ || _); [reflexivity|apply or_else_number].
Qed.

Lemma parsePercentage_unmarked s :
  JS.includes s "%" = false -> Utils.parsePercentage (Some s) = 0.
Proof.
  intros H. unfold Utils.parsePercentage. rewrite H.
  now rewrite orb_true_r.
Qed.

End ParseFacts.

(** C9. [parsePercentage] gives 0 for every text without the ["%"]
    marker, whatever digits it holds, and for an absent text; a result other
    than 0 means the marker is there. In particular ["15%"] gives 15 and
    ["15"] gives 0. *)
Theorem parsePercentage_needs_marker :
  (forall s,
      JS.includes s "%" = false -> Utils.parsePercentage (Some s) = 0)
  /\ Utils.parsePercentage None = 0
  /\ (forall t,
         is_zero (Utils.parsePercentage t) = false ->
         exists s, t = Some s /\ JS.includes s "%" = true)
  /\ Utils.parsePercentage (Some "15%") = 15
  /\ Utils.parsePercentage (Some "15") = 0.
Proof.
  split; [exact ParseFacts.parsePercentage_unmarked|].
  split; [reflexivity|]. split; [|split; reflexivity].
  intros [s|] H; [|discriminate H].
  exists s. split; [reflexivity|].
  destruct (JS.includes s "%") eqn:E; [reflexivity|].
  rewrite (ParseFacts.parsePercentage_unmarked s E) in H. discriminate H.
Qed.

Lemma parsePercentage_needs_marker_witness :
  Utils.parsePercentage (Some "15 per cent") = 0
  /\ exists s, Some "7.5%" = Some s /\ JS.includes s "%" = true.
Proof.
  destruct parsePercentage_needs_marker as (H1 & _ & H2 & _).
  split; [apply H1; reflexivity|apply H2; reflexivity].
Defined.

(** C5. The wizard's own [parsePrice] on the price text ["Contact us."]:
    the first run of digits and points is the final point, [parseFloat]
    gives [NaN] for it, and the wizard returns that [NaN], which makes the
    monthly total [NaN]. The shared [parsePrice] gives 0 on the same text,
    and never returns [NaN]. *)
Theorem wizard_parsePrice_not_a_number :
  Wizard.parsePrice (Some "Contact us.") = nan
  /\ is_nan (totalMonthlyCost (initial unpriced_catalog)) = true
  /\ Utils.parsePrice (Some "Contact us.") = 0
  /\ (forall t, is_nan (Utils.parsePrice t) = false).
Proof.
  split; [reflexivity|]. split; [reflexivity|]. split; [reflexivity|].
  exact ParseFacts.utils_parsePrice_number.
Qed.

Module RunFacts.

Lemma digit_numch c : JS.is_digit c = true -> JS.is_numch c = true.
Proof. unfold JS.is_numch. now intros ->. Qed.

(** The digits a run of digits and points starts with are those the
    text starts with. *)
Lemma span_digit_run s :
  JS.span JS.is_digit (fst (JS.span JS.is_numch s))
  = (fst (JS.span JS.is_digit s),
     fst (JS.span JS.is_numch (snd (JS.span JS.is_digit s)))).
Proof.
  induction s as [|c s IH]; [reflexivity|].
  cbn [JS.span]. destruct (JS.is_digit c) eqn:D.
  - rewrite (digit_numch c D).
    destruct (JS.span JS.is_numch s) as [a b] eqn:E1.
    destruct (JS.span JS.is_digit s) as [a' b'] eqn:E2.
    cbn [fst snd] in *. cbn [JS.span]. rewrite D, IH. reflexivity.
  - cbn [fst snd JS.span].
    destruct (JS.is_numch c) eqn:N.
    + destruct (JS.span JS.is_numch s) as [a b].
      cbn [fst JS.span]. rewrite D. reflexivity.
    + reflexivity.
Qed.

(** Reading the leading numeral of the first run is reading that of the
    text. *)
Lemma leading_numeral_run s :
  JS.leading_numeral (fst (JS.span JS.is_numch s)) = JS.leading_numeral s.
Proof.
  unfold JS.leading_numeral. rewrite span_digit_run.
  destruct (JS.span JS.is_digit s) as [ip rest]. cbn [fst snd].
  destruct rest as [|c rest']; [reflexivity|].
  cbn [JS.span]. destruct (JS.is_numch c) eqn:N.
  - destruct (JS.span JS.is_numch rest') as [a b] eqn:E.
    cbn [fst]. destruct (Ascii.eqb c "."%char); [|reflexivity].
    replace a with (fst (JS.span JS.is_numch rest')) by now rewrite E.
    rewrite span_digit_run. reflexivity.
  - cbn [fst]. unfold JS.is_numch in N.
    apply orb_false_elim in N as [_ ->]. reflexivity.
Qed.


Lemma dropWhile_app pre s :
  Spec.all_chars JS.not_numch pre = true ->
  JS.dropWhile JS.not_numch (pre ++ s) = JS.dropWhile JS.not_numch s.
Proof.
  induction pre as [|c pre IH]; [reflexivity|].
  cbn [Spec.all_chars JS.dropWhile append].
  intros H. apply andb_prop in H as [-> H]. auto.
Qed.

Lemma strip_all s :
  Spec.all_chars JS.not_numch s = true ->
  JS.strip_non_numeric s = EmptyString.
Proof.
  induction s as [|c s IH]; [reflexivity|].
  cbn [Spec.all_chars JS.strip_non_numeric].
  intros H. apply andb_prop in H as [Hc H].
  apply negb_true_iff in Hc. rewrite Hc. auto.
Qed.

Lemma strip_app a b :
  JS.strip_non_numeric (a ++ b)
  = JS.strip_non_numeric a ++ JS.strip_non_numeric b.
Proof.
  induction a as [|c a IH]; [reflexivity|].
  cbn [JS.strip_non_numeric append].
  destruct (JS.is_numch c); cbn [append]; now rewrite IH.
Qed.


Lemma append_empty_r s : s ++ EmptyString = s.
Proof. induction s as [|c s IH]; cbn [append]; congruence. Qed.

Lemma span_run run post :
  Spec.all_chars JS.is_numch run = true ->
  Spec.all_chars JS.not_numch post = true ->
  fst (JS.span JS.is_numch (run ++ post)) = run.
Proof.
  intros Hr Hp. induction run as [|c run IH].
  - cbn [append]. destruct post as [|c post]; [reflexivity|].
    cbn [Spec.all_chars] in Hp. apply andb_prop in Hp as [Hc _].
    apply negb_true_iff in Hc. cbn [JS.span]. now rewrite Hc.
  - cbn [Spec.all_chars] in Hr. apply andb_prop in Hr as [Hc Hr].
    cbn [append JS.span]. rewrite Hc.
    specialize (IH Hr).
    destruct (JS.span JS.is_numch (run ++ post)) as [a b].
    cbn [fst] in *. now rewrite IH.
Qed.

End RunFacts.

(** * Further properties of the code *)

Module StepFacts.

Import Steps.
Local Open Scope list_scope.

Lemma index_in_range i :
  (i < List.length steps)%nat -> in_range (number_of_nat i).
Proof.
  unfold in_range. cbn [List.length steps]. intros H.
  destruct i as [|[|[|[|i]]]]; [auto|auto|auto|auto|lia].
Qed.

Lemma click_in_range s c :
  drawn c = true -> in_range s -> in_range (click s c).
Proof.
  intros Hd Hs. destruct c as [| |i].
  - destruct Hs as [->|[->|[->| ->]]]; unfold in_range; cbn; auto.
  - destruct Hs as [->|[->|[->| ->]]]; unfold in_range; cbn; auto.
  - cbn [click goToStep]. apply index_in_range.
    cbn [drawn] in Hd. now apply Nat.ltb_lt.
Qed.

Lemma clicks_in_range clicks s :
  forallb drawn clicks = true -> in_range s ->
  in_range (fold_left click clicks s).
Proof.
  revert s. induction clicks as [|c l IH]; intros s H Hs; [exact Hs|].
  cbn [forallb] in H. apply andb_prop in H as [Hc Hl].
  cbn [fold_left]. apply IH; [exact Hl|]. now apply click_in_range.
Qed.

Lemma after_in_range clicks :
  forallb drawn clicks = true -> in_range (after clicks).
Proof.
  intros H. apply clicks_in_range; [exact H|]. left. reflexivity.
Qed.

Lemma iter_next n :
  fold_left click (repeat Next n) 0 = number_of_nat (Nat.min n 3).
Proof.
  destruct n as [|[|[|n]]]; try reflexivity.
  rewrite Nat.min_r by lia.
  induction n as [|n IH]; [reflexivity|].
  change (repeat Next (S (S (S (S n)))))
    with (Next :: repeat Next (S (S (S n)))).
  rewrite repeat_cons, fold_left_app, IH. reflexivity.
Qed.

End StepFacts.

(** X4. Whatever is clicked, in any order, among the Next and Back
    buttons and the step buttons the wizard draws, [currentStep] stays one
    of 0, 1, 2, 3: one of the four panels is shown, the progress bar is at
    25, 50, 75 or 100 per cent, and the add-to-quote button replaces Next
    exactly on step 3. *)
Theorem steps_stay_in_range (clicks : list Steps.Click) :
  forallb Steps.drawn clicks = true ->
  In (Steps.after clicks) [0; 1; 2; 3]
  /\ Steps.panel (Steps.after clicks) <> None
  /\ In (Steps.progress (Steps.after clicks)) [25; 50; 75; 100]
  /\ (Steps.shows_next (Steps.after clicks) = false <->
      Steps.after clicks = 3).
Proof.
  intros H. apply StepFacts.after_in_range in H.
  destruct H as [->|[->|[->| ->]]]; cbn [In];
    (split; [auto|]); (split; [cbn; discriminate|]);
    (split; [cbn; auto|]); split; cbn; try discriminate; auto;
    intros E; apply (f_equal (fun x => x =? 3)) in E; cbn in E;
    discriminate E.
Qed.

Lemma steps_stay_in_range_witness :
  In (Steps.after [Steps.Next; Steps.StepButton 3; Steps.Next; Steps.Back])
     [0; 1; 2; 3].
Proof.
  exact (proj1 (steps_stay_in_range
                  [Steps.Next; Steps.StepButton 3; Steps.Next; Steps.Back]
                  eq_refl)).
Defined.

(** X5. On every step the clicks can reach, Back undoes Next wherever
    Next is offered, Next undoes Back anywhere but on the first step, Next
    does nothing on the last step and Back nothing on the first. *)
Theorem next_and_back (clicks : list Steps.Click) :
  forallb Steps.drawn clicks = true ->
  (Steps.shows_next (Steps.after clicks) = true ->
   Steps.prevStep (Steps.nextStep (Steps.after clicks)) = Steps.after clicks)
  /\ (Steps.after clicks <> 0 ->
      Steps.nextStep (Steps.prevStep (Steps.after clicks))
      = Steps.after clicks)
  /\ (Steps.shows_next (Steps.after clicks) = false ->
      Steps.nextStep (Steps.after clicks) = Steps.after clicks)
  /\ (Steps.after clicks = 0 ->
      Steps.prevStep (Steps.after clicks) = Steps.after clicks).
Proof.
  intros H. apply StepFacts.after_in_range in H.
  destruct H as [->|[->|[->| ->]]];
    (split; [cbn; intros; try discriminate; reflexivity|]);
    (split; [intros; try congruence; reflexivity|]);
    (split; [cbn; intros; try discriminate; reflexivity|]);
    intros E; try reflexivity;
    apply (f_equal (fun x => x =? 0)) in E; cbn in E; discriminate E.
Qed.

Lemma next_and_back_witness :
  Steps.prevStep (Steps.nextStep (Steps.after [Steps.StepButton 1]))
  = Steps.after [Steps.StepButton 1].
Proof.
  destruct (next_and_back [Steps.StepButton 1] eq_refl) as (H & _).
  apply H. reflexivity.
Defined.

(** X6. Pressing Next [n] times from the start leads to step [n], or to
    the last step, 3, when [n] is more; from three presses on, Next is no
    longer offered. *)
Theorem next_saturates (n : nat) :
  Steps.after (repeat Steps.Next n) = Steps.number_of_nat (Nat.min n 3)
  /\ ((3 <= n)%nat ->
      Steps.shows_next (Steps.after (repeat Steps.Next n)) = false).
Proof.
  unfold Steps.after. rewrite StepFacts.iter_next. split; [reflexivity|].
  intros H. rewrite Nat.min_r by exact H. reflexivity.
Qed.

Lemma next_saturates_witness :
  Steps.shows_next (Steps.after (repeat Steps.Next 7)) = false.
Proof.
  apply (proj2 (next_saturates 7)). repeat constructor.
Defined.

Module RumFacts.

Import Rum.
Local Open Scope list_scope.

Lemma call_getRum c browser outcome st :
  call c browser outcome st =
  let '(rum, st', effects) := getRum browser outcome st in
  match rum with
  | Some _ => (st', effects ++ [action_of c])
  | None => (st', effects)
  end.
Proof. destruct c; reflexivity. Qed.

Lemma run_loaded calls r :
  run true calls (Some r)
  = (Some r, map (fun x => action_of (fst x)) calls).
Proof.
  induction calls as [|[c o] l IH]; [reflexivity|].
  cbn [run]. rewrite call_getRum. cbn. now rewrite IH.
Qed.

End RumFacts.

Module CeilFacts.

Import Class FloatFacts.

Lemma shl_value n p : Z.pos (JS.shl n p) = (Z.pos p * 2 ^ Z.of_nat n)%Z.
Proof.
  induction n as [|n IH]; cbn [JS.shl].
  - cbn. lia.
  - rewrite Pos2Z.inj_xO, IH, Nat2Z.inj_succ, Z.pow_succ_r by lia. lia.
Qed.

Lemma Prim2SF_float_of_pos_eq p :
  (Z.pos p < 2 ^ 53)%Z ->
  Prim2SF (JS.float_of_pos p)
  = S754_finite false
      (JS.shl (Z.to_nat (prec - Z.pos (digits2_pos p))) p)
      (Z.pos (digits2_pos p) - prec).
Proof.
  intros Hp. unfold JS.float_of_pos. apply Prim2SF_SF2Prim.
  cbn [SpecFloat.valid_binary]. unfold bounded, canonical_mantissa, fexp.
  assert (Hd : (Z.pos (digits2_pos p) <= 53)%Z)
    by (apply digits2_le; [lia|exact Hp]).
  rewrite digits2_shl. unfold prec, emin, emax.
  rewrite Z2Nat.id by lia.
  apply andb_true_intro; split.
  - apply Z.eqb_eq. lia.
  - apply Z.leb_le. lia.
Qed.

(** A whole number built by [float_of_pos], of either sign, is its own
    ceiling. *)
Lemma ceil_whole s p y :
  (Z.pos p < 2 ^ 53)%Z ->
  Prim2SF y
  = S754_finite s
      (JS.shl (Z.to_nat (prec - Z.pos (digits2_pos p))) p)
      (Z.pos (digits2_pos p) - prec) ->
  JS.Math_ceil y = y.
Proof.
  intros Hp Hy. unfold JS.Math_ceil. rewrite Hy.
  destruct (0 <=? Z.pos (digits2_pos p) - prec)%Z eqn:He; [reflexivity|].
  apply Z.leb_gt in He.
  rewrite shl_value, Z2Nat.id by lia.
  replace (- (Z.pos (digits2_pos p) - prec))%Z
    with (prec - Z.pos (digits2_pos p))%Z by lia.
  rewrite Z.mod_mul by (apply Z.pow_nonzero; lia).
  reflexivity.
Qed.

Lemma ceil_float_of_pos p :
  (Z.pos p < 2 ^ 53)%Z ->
  JS.Math_ceil (JS.float_of_pos p) = JS.float_of_pos p.
Proof.
  intros Hp. apply (ceil_whole false p); [exact Hp|].
  now apply Prim2SF_float_of_pos_eq.
Qed.

Lemma ceil_opp_float_of_pos p :
  (Z.pos p < 2 ^ 53)%Z ->
  JS.Math_ceil (- JS.float_of_pos p) = - JS.float_of_pos p.
Proof.
  intros Hp. apply (ceil_whole true p); [exact Hp|].
  rewrite opp_spec, Prim2SF_float_of_pos_eq by exact Hp. reflexivity.
Qed.

(** [Math.ceil] gives whole numbers: taking it again changes nothing. *)
Lemma ceil_idem x : JS.Math_ceil (JS.Math_ceil x) = JS.Math_ceil x.
Proof.
  pose proof (Prim2SF_valid x) as Hv.
  assert (Hself : JS.Math_ceil x = x ->
                  JS.Math_ceil (JS.Math_ceil x) = JS.Math_ceil x)
    by (intros E; now rewrite !E).
  unfold JS.Math_ceil at 2 3. unfold JS.Math_ceil in Hself.
  destruct (Prim2SF x) as [sz|si| |s m e] eqn:E;
    try (apply Hself; reflexivity).
  destruct (0 <=? e)%Z eqn:He; [apply Hself; reflexivity|].
  destruct (Z.pos m mod 2 ^ (- e) =? 0)%Z; [apply Hself; reflexivity|].
  clear Hself. apply Z.leb_gt in He. apply valid_mantissa in Hv.
  assert (Hq : (0 <= Z.pos m / 2 ^ (- e) < 2 ^ 52)%Z).
  { split.
    - apply Z.div_pos; [lia|]. apply Z.pow_pos_nonneg; lia.
    - apply Z.div_lt_upper_bound; [apply Z.pow_pos_nonneg; lia|].
      assert (2 ^ 1 <= 2 ^ (- e))%Z by (apply Z.pow_le_mono_r; lia).
      change (2 ^ 53)%Z with (2 ^ 1 * 2 ^ 52)%Z in Hv.
      change (2 ^ 1)%Z with 2%Z in *.
      assert (0 < 2 ^ 52)%Z by (apply Z.pow_pos_nonneg; lia).
      nia. }
  assert (H52 : (2 ^ 53 = 2 * 2 ^ 52)%Z) by reflexivity.
  destruct s.
  - destruct (Z.pos m / 2 ^ (- e))%Z as [|p|p] eqn:Q; try reflexivity.
    apply ceil_opp_float_of_pos. lia.
  - apply ceil_float_of_pos. rewrite Z2Pos.id by lia. lia.
Qed.

End CeilFacts.

Module SignFacts.

Import Class FloatFacts.

(** Right shifts and rounding keep a mantissa non-negative. *)
Lemma shr_1_nonneg mrs : (0 <= shr_m mrs)%Z -> (0 <= shr_m (shr_1 mrs))%Z.
Proof.
  destruct mrs as [m r s]. cbn [shr_m shr_1].
  destruct m as [|p|p]; [|destruct p|]; cbn [shr_m]; lia.
Qed.

Lemma iter_shr_nonneg p mrs :
  (0 <= shr_m mrs)%Z -> (0 <= shr_m (iter_pos shr_1 p mrs))%Z.
Proof.
  revert mrs. induction p as [p IH|p IH|]; intros mrs H; cbn [iter_pos].
  - apply IH, IH. now apply shr_1_nonneg.
  - now apply IH, IH.
  - now apply shr_1_nonneg.
Qed.

Lemma shr_fexp_nonneg m e l :
  (0 <= m)%Z -> (0 <= shr_m (fst (shr_fexp prec emax m e l)))%Z.
Proof.
  intros H. unfold shr_fexp, shr.
  assert (H0 : (0 <= shr_m (shr_record_of_loc m l))%Z)
    by (destruct l as [|[| |]]; exact H).
  destruct (fexp prec emax (Zdigits2 m + e) - e)%Z; cbn [fst];
    auto using iter_shr_nonneg.
Qed.

Lemma round_nearest_even_nonneg m l :
  (0 <= m)%Z -> (0 <= round_nearest_even m l)%Z.
Proof.
  intros H. unfold round_nearest_even.
  destruct l as [|[| |]]; try destruct (Z.even m); lia.
Qed.

(** Rounding a non-negative mantissa with the sign [+] gives a value that
    is not below zero, and is a number. *)
Lemma round_aux_class mx ex lx :
  (0 <= mx)%Z ->
  nonneg_sf (binary_round_aux prec emax false mx ex lx) = true.
Proof.
  intros H. unfold binary_round_aux.
  pose proof (shr_fexp_nonneg mx ex lx H) as H1.
  destruct (shr_fexp prec emax mx ex lx) as [mrs' e']. cbn [fst] in H1.
  pose proof (shr_fexp_nonneg _ e' loc_Exact
                (round_nearest_even_nonneg _ (loc_of_shr_record mrs') H1))
    as H2.
  destruct (shr_fexp prec emax _ e' loc_Exact) as [mrs'' e''].
  cbn [fst] in H2.
  destruct (shr_m mrs''); [reflexivity| |lia].
  destruct (e'' <=? emax - prec)%Z; reflexivity.
Qed.

Lemma binary_round_class m e :
  nonneg_sf (binary_round prec emax false m e) = true.
Proof.
  unfold binary_round.
  destruct (shl_align m e _) as [mz ez]. apply round_aux_class. lia.
Qed.

Lemma binary_normalize_class m e :
  (0 <= m)%Z -> nonneg_sf (binary_normalize prec emax m e false) = true.
Proof.
  intros H. destruct m as [|p|p]; [reflexivity| |lia].
  apply binary_round_class.
Qed.

Lemma ldexp_class f e :
  nonneg_sf f = true -> nonneg_sf (SFldexp prec emax f e) = true.
Proof.
  destruct f as [s|[|]| |[|] m ex]; try discriminate; intros _;
    try reflexivity.
  apply binary_round_class.
Qed.

(** The float of a non-negative specification value is not below zero. *)
Lemma SF2Prim_class f :
  nonneg_sf f = true -> nonneg_sf (Prim2SF (SF2Prim f)) = true.
Proof.
  destruct f as [[|]|[|]| |[|] m e]; try discriminate; intros _;
    try reflexivity.
  cbn [SF2Prim]. rewrite Z_ldexp_spec, of_uint63_spec.
  apply ldexp_class, binary_normalize_class.
  apply Uint63.to_Z_bounded.
Qed.

Lemma round_ratio_class n d : nonneg_sf (JS.round_ratio n d) = true.
Proof.
  unfold JS.round_ratio. destruct (n <=? 0)%Z eqn:E; [reflexivity|].
  apply Z.leb_gt in E. apply binary_normalize_class.
  assert (0 <= n * 2 ^ Z.max 0 (Z.log2 (Z.pos d) - Z.log2 n + 56)
               / Z.pos d)%Z.
  { apply Z.div_pos; [|lia]. apply Z.mul_nonneg_nonneg; [lia|].
    apply Z.pow_nonneg. lia. }
  destruct (_ =? 0)%Z; lia.
Qed.

(** A decimal numeral is read as a number that is not below zero. *)
Lemma decimal_value_class ip fp :
  nonneg_sf (Prim2SF (JS.decimal_value ip fp)) = true.
Proof. apply SF2Prim_class, round_ratio_class. Qed.

Lemma nonneg_number x :
  nonneg_sf (Prim2SF x) = true -> is_nan x = false /\ (0 <=? x) = true.
Proof.
  rewrite is_nan_spec, ge0_spec. intros H. split; [|exact H].
  destruct (Prim2SF x) as [[|]|[|]| |[|] m e]; try discriminate;
    reflexivity.
Qed.

(** Sums of values that are not below zero. *)
Lemma add_nn x y : nn x -> nn y -> nn (x + y).
Proof.
  unfold nn. rewrite add_spec. unfold SF64add.
  destruct (Prim2SF x) as [[|]|[|]| |[|] mx ex];
    destruct (Prim2SF y) as [[|]|[|]| |[|] my ey];
    cbn [SFadd nonneg_sf];
    intros [Hx|Hx] [Hy|Hy]; try discriminate; auto.
  left. cbn [cond_Zopp Z.add]. apply binary_round_class.
Qed.

End SignFacts.

Module PriceFacts.

Import Class FloatFacts SignFacts.

Lemma parseFloat_numeral run :
  JS.leading_numeral run <> None ->
  is_nan (JS.parseFloat run) = false /\ (0 <=? JS.parseFloat run) = true.
Proof.
  unfold JS.parseFloat.
  destruct (JS.leading_numeral run) as [[ip fp]|]; [|congruence].
  intros _. apply nonneg_number, decimal_value_class.
Qed.

Lemma parseFloat_no_numeral run :
  JS.leading_numeral run = None -> JS.parseFloat run = nan.
Proof. unfold JS.parseFloat. now intros ->. Qed.

Lemma or_else_nonneg x :
  (is_nan x = false -> (0 <=? x) = true) -> (0 <=? JS.or_else x 0) = true.
Proof.
  intros H. unfold JS.or_else, JS.truthy.
  destruct (is_nan x) eqn:E; cbn [orb negb]; [reflexivity|].
  destruct (is_zero x); cbn [negb]; [reflexivity|auto].
Qed.

Lemma parseFloat_nonneg_or_nan run :
  is_nan (JS.parseFloat run) = false -> (0 <=? JS.parseFloat run) = true.
Proof.
  destruct (JS.leading_numeral run) as [[ip fp]|] eqn:E.
  - intros _. apply parseFloat_numeral. congruence.
  - rewrite (parseFloat_no_numeral _ E). discriminate.
Qed.

(** The shared parser on any text: the guards on the empty text and on
    the dash change nothing. *)
Lemma utils_parsePrice_stripped s :
  Utils.parsePrice (Some s)
  = JS.or_else (JS.parseFloat (JS.strip_non_numeric s)) 0.
Proof.
  unfold Utils.parsePrice.
  replace (JS.falsy_text (Some s)) with (String.eqb s EmptyString)
    by now destruct s.
  destruct (String.eqb s EmptyString) eqn:E1.
  { apply String.eqb_eq in E1. subst s. reflexivity. }
  destruct (String.eqb s "-") eqn:E2.
  { apply String.eqb_eq in E2. subst s. reflexivity. }
  reflexivity.
Qed.

Lemma marker_not_guarded s :
  JS.includes s "%" = true ->
  JS.falsy_text (Some s) || String.eqb s "-" || String.eqb s EmptyString
  = false.
Proof.
  intros H.
  destruct (String.eqb s EmptyString) eqn:E1.
  { apply String.eqb_eq in E1. subst s. discriminate H. }
  destruct (String.eqb s "-") eqn:E2.
  { apply String.eqb_eq in E2. subst s. discriminate H. }
  destruct s; [discriminate E1|reflexivity].
Qed.

Lemma span_run_then run c rest :
  Spec.all_chars JS.is_numch run = true ->
  JS.not_numch c = true ->
  fst (JS.span JS.is_numch (run ++ String c rest)) = run.
Proof.
  intros Hr Hc. unfold JS.not_numch in Hc. apply negb_true_iff in Hc.
  induction run as [|a run IH].
  - cbn [append JS.span]. now rewrite Hc.
  - cbn [Spec.all_chars] in Hr. apply andb_prop in Hr as [Ha Hr].
    cbn [append JS.span]. rewrite Ha. specialize (IH Hr).
    destruct (JS.span JS.is_numch (run ++ String c rest)) as [x y].
    cbn [fst] in *. now rewrite IH.
Qed.

Lemma match_numeric_first_run pre a run tail :
  Spec.all_chars JS.not_numch pre = true ->
  Spec.all_chars JS.is_numch (String a run) = true ->
  tail = EmptyString
  \/ (exists c rest, tail = String c rest /\ JS.not_numch c = true) ->
  JS.match_numeric (pre ++ String a run ++ tail) = Some (String a run).
Proof.
  intros Hpre Hrun Htail. unfold JS.match_numeric.
  rewrite (RunFacts.dropWhile_app _ _ Hpre).
  pose proof Hrun as Ha. cbn [Spec.all_chars] in Ha.
  apply andb_prop in Ha as [Ha _].
  cbn [append JS.dropWhile]. unfold JS.not_numch at 1. rewrite Ha.
  cbn [negb]. f_equal.
  change (String a (run ++ tail)) with (String a run ++ tail).
  destruct Htail as [->|(c & rest & -> & Hc)].
  - now apply RunFacts.span_run.
  - now apply span_run_then.
Qed.

Lemma digit_led_numeral c r :
  JS.is_digit c = true -> JS.leading_numeral (String c r) <> None.
Proof.
  intros H. unfold JS.leading_numeral. cbn [JS.span]. rewrite H.
  destruct (JS.span JS.is_digit r) as [ip rest]. discriminate.
Qed.

Lemma wizard_parsePrice_cases s :
  Wizard.parsePrice (Some s)
  = match JS.match_numeric s with
    | Some run => JS.parseFloat run
    | None => 0
    end.
Proof.
  unfold Wizard.parsePrice. destruct s as [|c s]; reflexivity.
Qed.

Lemma wizard_parsePrice_nn t : nn (Wizard.parsePrice t).
Proof.
  destruct t as [s|]; [|left; reflexivity].
  rewrite wizard_parsePrice_cases.
  destruct (JS.match_numeric s) as [run|]; [|left; reflexivity].
  unfold JS.parseFloat.
  destruct (JS.leading_numeral run) as [[ip fp]|]; [|right; reflexivity].
  left. apply decimal_value_class.
Qed.

Lemma nn_cases x : nn x <-> (0 <=? x) = true \/ is_nan x = true.
Proof.
  unfold nn. rewrite ge0_spec, is_nan_spec. split; intros [H|H]; auto.
  - right. now rewrite H.
  - right. destruct (Prim2SF x); try discriminate; reflexivity.
Qed.

End PriceFacts.

(** ** The price parsers against 4.2 *)

Module PlusFacts.

Import Class FloatFacts SignFacts.









End PlusFacts.

Module NumeralFacts.

Lemma not_numch_digit c : JS.not_numch c = true -> JS.is_digit c = false.
Proof.
  unfold JS.not_numch, JS.is_numch. intros H.
  apply negb_true_iff, orb_false_elim in H. tauto.
Qed.

Lemma not_numch_point c :
  JS.not_numch c = true -> Ascii.eqb c "."%char = false.
Proof.
  unfold JS.not_numch, JS.is_numch. intros H.
  apply negb_true_iff, orb_false_elim in H. tauto.
Qed.


(** What stands before the first digit or point is passed over. *)
Lemma first_number_skip pre s :
  Spec.all_chars JS.not_numch pre = true ->
  Spec.first_number (pre ++ s) = Spec.first_number s.
Proof.
  induction pre as [|c pre IH]; [reflexivity|].
  cbn [Spec.all_chars append Spec.first_number].
  intros H. apply andb_prop in H as [Hc H].
  rewrite (not_numch_digit c Hc), (not_numch_point c Hc). auto.
Qed.

Lemma first_number_none s :
  Spec.all_chars JS.not_numch s = true -> Spec.first_number s = None.
Proof.
  intros H. rewrite <- (RunFacts.append_empty_r s).
  now rewrite first_number_skip.
Qed.







End NumeralFacts.




(** ** Usage numbers that are not strictly positive *)

Module NonPositiveFacts.

Import Class FloatFacts.








End NonPositiveFacts.





Module CostSignFacts.

Import Class FloatFacts SignFacts PriceFacts.

Lemma cost_nn (enable : bool) q p :
  nn q -> nn p -> nn (if enable then q * p else 0).
Proof.
  intros Hq Hp. destruct enable; [now apply mul_nn|left; reflexivity].
Qed.

Lemma costs_nn st :
  (0 <=? ingestedLogsGB st) = true ->
  JS.gt0 (avgLogSizeKB st) = true ->
  (0 <=? indexingPercentage st) = true ->
  (0 <=? flexStarterEvents st) = true ->
  (0 <=? flexStorageEvents st) = true ->
  (0 <=? forwardingGB st) = true ->
  nn (ingestionCost st) /\ nn (indexedCost st) /\ nn (additionalCost st)
  /\ nn (totalMonthlyCost st) /\ nn (yearlyCost st).
Proof.
  intros Hg Ha Hp H1 H2 H3.
  destruct (QuantityFacts.derived_nn st Hg Ha Hp) as (_ & _ & Hm).
  assert (Ci : nn (ingestionCost st))
    by (apply mul_nn; [now apply ge0_nn|apply wizard_parsePrice_nn]).
  assert (Cx : nn (indexedCost st))
    by (apply mul_nn; [exact Hm|apply wizard_parsePrice_nn]).
  assert (Ca : nn (additionalCost st)).
  { unfold additionalCost, flexStarterCost, flexStorageCost, forwardingCost.
    repeat apply add_nn; apply cost_nn;
      try (now apply ge0_nn); apply wizard_parsePrice_nn. }
  assert (Ct : nn (totalMonthlyCost st))
    by (unfold totalMonthlyCost; apply add_nn; [apply add_nn|];
        assumption).
  repeat split; try assumption.
  unfold yearlyCost. apply mul_nn; [exact Ct|]. apply ge0_nn. reflexivity.
Qed.

(** Adding zero changes nothing, but for the sign of a negative zero. *)
Lemma add_0_r x : x + 0 = x \/ (x = neg_zero /\ x + 0 = 0).
Proof.
  destruct (Prim2SF x) as [[|]|[|]| |[|] m e] eqn:E.
  2-7: left; apply Prim2SF_inj; rewrite add_spec, E; reflexivity.
  right.
  assert (Hx : x = neg_zero) by (apply Prim2SF_inj; rewrite E; reflexivity).
  split; [exact Hx|]. rewrite Hx. reflexivity.
Qed.

End CostSignFacts.

(** ** The quantities of the quote items *)

Module WholeFacts.

Import Class FloatFacts CeilFacts.

Lemma whole_float_of_pos p :
  (Z.pos p < 2 ^ 53)%Z ->
  whole_sf (Prim2SF (JS.float_of_pos p)) = true.
Proof.
  intros Hp. rewrite Prim2SF_float_of_pos_eq by exact Hp.
  cbn [whole_sf].
  destruct (0 <=? Z.pos (digits2_pos p) - prec)%Z eqn:He; [reflexivity|].
  apply Z.leb_gt in He. cbn [orb].
  rewrite shl_value, Z2Nat.id by lia.
  replace (- (Z.pos (digits2_pos p) - prec))%Z
    with (prec - Z.pos (digits2_pos p))%Z by lia.
  rewrite Z.mod_mul by (apply Z.pow_nonzero; lia).
  reflexivity.
Qed.

(** The ceiling of a strictly positive number is a whole number, but for
    Infinity, whose ceiling is Infinity. *)
Lemma ceil_pos_whole x :
  JS.gt0 x = true ->
  (x = infinity /\ JS.Math_ceil x = infinity)
  \/ (is_finite x = true /\ whole_sf (Prim2SF (JS.Math_ceil x)) = true).
Proof.
  intros Hx. rewrite gt0_spec in Hx. rewrite is_finite_spec.
  unfold JS.Math_ceil.
  pose proof (Prim2SF_valid x) as Hv.
  destruct (Prim2SF x) as [sz|si| |s m e] eqn:E; try discriminate Hx.
  - destruct si; [discriminate Hx|]. left.
    assert (x = infinity) by (apply Prim2SF_inj; now rewrite E).
    auto.
  - destruct s; [discriminate Hx|]. right. split; [reflexivity|].
    destruct (0 <=? e)%Z eqn:He.
    { rewrite E. cbn [whole_sf]. now rewrite He. }
    destruct (Z.pos m mod 2 ^ (- e) =? 0)%Z eqn:Hm.
    { rewrite E. cbn [whole_sf]. rewrite Hm. apply orb_true_r. }
    apply Z.leb_gt in He. apply valid_mantissa in Hv.
    apply whole_float_of_pos.
    assert (Hq : (0 <= Z.pos m / 2 ^ (- e) < 2 ^ 52)%Z).
    { split.
      - apply Z.div_pos; [lia|]. apply Z.pow_pos_nonneg; lia.
      - apply Z.div_lt_upper_bound; [apply Z.pow_pos_nonneg; lia|].
        assert (2 ^ 1 <= 2 ^ (- e))%Z by (apply Z.pow_le_mono_r; lia).
        change (2 ^ 53)%Z with (2 ^ 1 * 2 ^ 52)%Z in Hv.
        change (2 ^ 1)%Z with 2%Z in *.
        assert (0 < 2 ^ 52)%Z by (apply Z.pow_pos_nonneg; lia).
        nia. }
    rewrite Z2Pos.id by lia.
    change (2 ^ 53)%Z with (2 * 2 ^ 52)%Z. lia.
Qed.

End WholeFacts.

(** X1. Every quote item [addToQuote] builds has a strictly positive
    quantity that [Math.ceil] leaves as it is. The quantity is a whole
    number whenever the number the item is billed on is finite; when that
    number is Infinity, as the indexed quantity is at an entry size of 0,
    the quantity is Infinity. *)
Theorem quantities_are_whole :
  (forall st it,
      In it (buildItems st) ->
      JS.gt0 (quantity it) = true
      /\ JS.Math_ceil (quantity it) = quantity it
      /\ exists c,
           Spec.enabled st c = true
           /\ Spec.matched st c = Some (item_product it)
           /\ quantity it = JS.Math_ceil (Spec.usage st c)
           /\ ((Spec.usage st c = infinity /\ quantity it = infinity)
               \/ (is_finite (Spec.usage st c) = true
                   /\ Class.whole_sf (Prim2SF (quantity it)) = true)))
  /\ map quantity (buildItems zero_entry_size) = [100; infinity].
Proof.
  split; [|reflexivity].
  intros st it H. apply ItemFacts.In_buildItems in H as (c & H).
  apply ItemFacts.In_item_for in H as (p & Hp & Hq & ->).
  cbn [quantity item_product].
  apply ItemFacts.gt0_billing_quantity in Hq as Hc.
  destruct Hc as (He & Hu). rewrite Hu in *.
  split; [now apply FloatFacts.ceil_pos|].
  split; [apply CeilFacts.ceil_idem|].
  exists c. split; [exact He|]. split; [exact Hp|].
  split; [reflexivity|].
  now apply WholeFacts.ceil_pos_whole.
Qed.

Lemma quantities_are_whole_witness :
  JS.gt0 100 = true
  /\ JS.Math_ceil 100 = 100
  /\ exists c,
       Spec.enabled sample_all_on c = true
       /\ Spec.matched sample_all_on c
          = Some {| product := "Logs - Ingestion";
                    billing_unit := "Per ingested GB";
                    billed_annually := Some "$0.10" |}
       /\ 100 = JS.Math_ceil (Spec.usage sample_all_on c)
       /\ ((Spec.usage sample_all_on c = infinity /\ 100 = infinity)
           \/ (is_finite (Spec.usage sample_all_on c) = true
               /\ Class.whole_sf (Prim2SF 100) = true)).
Proof.
  apply (proj1 quantities_are_whole sample_all_on
           {| item_product :=
                {| product := "Logs - Ingestion";
                   billing_unit := "Per ingested GB";
                   billed_annually := Some "$0.10" |};
              quantity := 100 |}).
  vm_compute. left. reflexivity.
Defined.

(** X2. When both mandatory products are found and the volume and the
    indexed quantity are strictly positive, the items start with the
    ingestion item and the indexed-events item, at most three add-on items
    follow, and finalizing calls [onAddToQuote] once with them. *)
Theorem mandatory_items_lead (st : State) :
  productsNotFound st = false ->
  JS.gt0 (ingestedLogsGB st) = true ->
  JS.gt0 (indexedLogsInMillions st) = true ->
  exists pi px extras,
    ingestionProduct st = Some pi
    /\ indexedProduct st = Some px
    /\ buildItems st
       = {| item_product := pi;
            quantity := JS.Math_ceil (ingestedLogsGB st) |}
         :: {| item_product := px;
               quantity := JS.Math_ceil (indexedLogsInMillions st) |}
         :: extras
    /\ (List.length extras <= 3)%nat
    /\ addToQuote st = [OnAddToQuote (buildItems st)].
Proof.
  intros Hf Hg Hm. unfold productsNotFound in Hf.
  destruct (ingestionProduct st) as [pi|] eqn:Ei; [|discriminate Hf].
  destruct (indexedProduct st) as [px|] eqn:Ex; [|discriminate Hf].
  assert (Hb : buildItems st
               = {| item_product := pi;
                    quantity := JS.Math_ceil (ingestedLogsGB st) |}
                 :: {| item_product := px;
                       quantity := JS.Math_ceil (indexedLogsInMillions st) |}
                 :: (Spec.category_items st Spec.FlexStarter
                     ++ Spec.category_items st Spec.FlexStorage
                     ++ Spec.category_items st Spec.Forwarding)%list).
  { rewrite ItemFacts.buildItems_spec.
    unfold Spec.buildItems, Spec.precedence. cbn [flat_map].
    unfold Spec.category_items at 1 2.
    cbn [Spec.matched Spec.billing_quantity Spec.enabled Spec.usage].
    rewrite Ei, Ex. unfold Spec.item_for. rewrite Hg, Hm.
    cbn [app]. now rewrite app_nil_r. }
  exists pi, px. eexists. split; [reflexivity|]. split; [reflexivity|].
  split; [exact Hb|]. split.
  - rewrite !length_app. unfold Spec.category_items, Spec.item_for.
    repeat match goal with
           | |- context [match ?m with Some _ => _ | None => _ end] =>
               destruct m
           | |- context [if ?b then _ else _] => destruct b
           end; cbn; lia.
  - unfold addToQuote. rewrite Hb. reflexivity.
Qed.

Lemma mandatory_items_lead_witness :
  exists pi px extras,
    ingestionProduct sample_all_on = Some pi
    /\ indexedProduct sample_all_on = Some px
    /\ buildItems sample_all_on
       = {| item_product := pi;
            quantity := JS.Math_ceil (ingestedLogsGB sample_all_on) |}
         :: {| item_product := px;
               quantity :=
                 JS.Math_ceil (indexedLogsInMillions sample_all_on) |}
         :: extras
    /\ (List.length extras <= 3)%nat
    /\ addToQuote sample_all_on = [OnAddToQuote (buildItems sample_all_on)].
Proof.
  apply mandatory_items_lead; reflexivity.
Defined.

(** X3. With the three add-ons switched off, only the two mandatory
    categories can give items, the add-on cost is 0 so the Extras row is
    not shown, and the monthly total is the ingestion cost plus the
    indexed cost (a sum of negative zero being shown as zero). *)
Theorem addons_off (st : State) :
  enableFlexStarter st = false ->
  enableFlexStorage st = false ->
  enableForwarding st = false ->
  buildItems st
  = (Spec.category_items st Spec.Ingestion
     ++ Spec.category_items st Spec.IndexedEvents)%list
  /\ additionalCost st = 0
  /\ JS.gt0 (additionalCost st) = false
  /\ (totalMonthlyCost st = ingestionCost st + indexedCost st
      \/ (ingestionCost st + indexedCost st = neg_zero
          /\ totalMonthlyCost st = 0)).
Proof.
  intros H1 H2 H3.
  assert (Ha : additionalCost st = 0).
  { unfold additionalCost, flexStarterCost, flexStorageCost, forwardingCost.
    rewrite H1, H2, H3. reflexivity. }
  split.
  { rewrite ItemFacts.buildItems_spec.
    unfold Spec.buildItems, Spec.precedence. cbn [flat_map].
    rewrite (ItemFacts.category_items_enabled st Spec.FlexStarter),
      (ItemFacts.category_items_enabled st Spec.FlexStorage),
      (ItemFacts.category_items_enabled st Spec.Forwarding).
    cbn [Spec.enabled]. rewrite H1, H2, H3. cbn [app].
    now rewrite app_nil_r. }
  split; [exact Ha|]. split; [rewrite Ha; reflexivity|].
  unfold totalMonthlyCost. rewrite Ha. apply CostSignFacts.add_0_r.
Qed.

Lemma addons_off_witness :
  buildItems (initial sample_catalog)
  = (Spec.category_items (initial sample_catalog) Spec.Ingestion
     ++ Spec.category_items (initial sample_catalog) Spec.IndexedEvents)%list
  /\ additionalCost (initial sample_catalog) = 0.
Proof.
  destruct (addons_off (initial sample_catalog) eq_refl eq_refl eq_refl)
    as (H1 & H2 & _).
  exact (conj H1 H2).
Defined.

(** X7. [parsePercentage] is [parsePrice] behind the test of
    [isPercentagePrice]: on a text that test accepts the two parsers give
    the same number, on any other text [parsePercentage] gives 0. *)
Theorem percentage_is_guarded_price (t : option string) :
  Utils.parsePercentage t
  = if Utils.isPercentagePrice t then Utils.parsePrice t else 0.
Proof.
  destruct t as [s|]; [|reflexivity].
  unfold Utils.parsePercentage, Utils.isPercentagePrice.
  destruct (JS.falsy_text (Some s)) eqn:F; [reflexivity|].
  cbn [orb]. destruct (JS.includes s "%") eqn:I; [|reflexivity].
  cbn [negb]. unfold Utils.parsePrice.
  now rewrite (PriceFacts.marker_not_guarded s I).
Qed.

(** X8. The shared [parsePrice] reads the digits and points of a text and
    nothing else: two texts with the same digits and points in the same
    order give the same price, so characters that are neither can be put
    in or taken out anywhere. *)
Theorem utils_parsePrice_reads_digits_only :
  (forall s s',
      JS.strip_non_numeric s = JS.strip_non_numeric s' ->
      Utils.parsePrice (Some s) = Utils.parsePrice (Some s'))
  /\ (forall a junk b,
         Spec.all_chars JS.not_numch junk = true ->
         Utils.parsePrice (Some (a ++ junk ++ b))
         = Utils.parsePrice (Some (a ++ b))).
Proof.
  assert (H : forall s s',
             JS.strip_non_numeric s = JS.strip_non_numeric s' ->
             Utils.parsePrice (Some s) = Utils.parsePrice (Some s')).
  { intros s s' E. rewrite !PriceFacts.utils_parsePrice_stripped.
    now rewrite E. }
  split; [exact H|].
  intros a junk b Hj. apply H.
  rewrite !RunFacts.strip_app, (RunFacts.strip_all junk Hj). reflexivity.
Qed.

Lemma utils_parsePrice_reads_digits_only_witness :
  Utils.parsePrice (Some "$1,234.50 per host")
  = Utils.parsePrice (Some "1234.50")
  /\ Utils.parsePrice (Some ("$1" ++ "," ++ "234.50"))
     = Utils.parsePrice (Some ("$1" ++ "234.50")).
Proof.
  destruct utils_parsePrice_reads_digits_only as (H1 & H2).
  split; [apply H1; reflexivity|apply H2; reflexivity].
Defined.

(** X9. The wizard's [parsePrice] reads the first run of digits and points
    and nothing after it: with characters that are neither before the run,
    and such a character right after it, the price is [parseFloat] of the
    run, whatever follows. *)
Theorem wizard_parsePrice_reads_first_run
    (pre run : string) (c : ascii) (rest : string) :
  Spec.all_chars JS.not_numch pre = true ->
  Spec.all_chars JS.is_numch run = true ->
  run <> EmptyString ->
  JS.not_numch c = true ->
  Wizard.parsePrice (Some (pre ++ run ++ String c rest))
  = JS.parseFloat run
  /\ Wizard.parsePrice (Some (pre ++ run)) = JS.parseFloat run.
Proof.
  intros Hpre Hrun Hne Hc. destruct run as [|a run]; [congruence|].
  rewrite !PriceFacts.wizard_parsePrice_cases. split.
  - rewrite (PriceFacts.match_numeric_first_run pre a run (String c rest));
      eauto.
  - rewrite <- (RunFacts.append_empty_r (String a run)) at 1.
    rewrite (PriceFacts.match_numeric_first_run pre a run EmptyString);
      auto.
Qed.

Lemma wizard_parsePrice_reads_first_run_witness :
  Wizard.parsePrice (Some ("$" ++ "0.10" ++ String " " "per 1,000 spans"))
  = JS.parseFloat "0.10"
  /\ Wizard.parsePrice (Some ("$" ++ "0.10")) = JS.parseFloat "0.10".
Proof.
  apply wizard_parsePrice_reads_first_run;
    [reflexivity|reflexivity|discriminate|reflexivity].
Defined.

(** X10. The shared parsers never give a negative number nor [NaN]: the
    results of [parsePrice] and [parsePercentage] are numbers not below
    zero, for every text. *)
Theorem utils_prices_not_negative (t : option string) :
  (is_nan (Utils.parsePrice t) = false
   /\ (0 <=? Utils.parsePrice t) = true)
  /\ (is_nan (Utils.parsePercentage t) = false
      /\ (0 <=? Utils.parsePercentage t) = true).
Proof.
  assert (H : is_nan (Utils.parsePrice t) = false
              /\ (0 <=? Utils.parsePrice t) = true).
  { split; [apply ParseFacts.utils_parsePrice_number|].
    destruct t as [s|]; [|reflexivity].
    rewrite PriceFacts.utils_parsePrice_stripped.
    apply PriceFacts.or_else_nonneg, PriceFacts.parseFloat_nonneg_or_nan. }
  split; [exact H|]. clear H.
  destruct t as [s|]; [|split; reflexivity].
  unfold Utils.parsePercentage.
  destruct (_ || _); [split; reflexivity|]. split.
  - apply ParseFacts.or_else_number.
  - apply PriceFacts.or_else_nonneg, PriceFacts.parseFloat_nonneg_or_nan.
Qed.

(** X11. The wizard's [parsePrice] gives [NaN] exactly on the texts whose
    first run of digits and points does not start with a numeral, a point
    with no digit after it; in particular never on a text whose first
    digit or point is a digit. Whatever else it gives is not below zero. *)
Theorem wizard_parsePrice_nan_iff :
  (forall t,
      is_nan (Wizard.parsePrice t) = true <->
      exists s run,
        t = Some s /\ JS.match_numeric s = Some run
        /\ JS.leading_numeral run = None)
  /\ (forall pre c rest,
         Spec.all_chars JS.not_numch pre = true ->
         JS.is_digit c = true ->
         is_nan (Wizard.parsePrice (Some (pre ++ String c rest))) = false)
  /\ (forall t,
         is_nan (Wizard.parsePrice t) = false ->
         (0 <=? Wizard.parsePrice t) = true).
Proof.
  split; [|split].
  - intros [s|].
    + rewrite PriceFacts.wizard_parsePrice_cases.
      destruct (JS.match_numeric s) as [run|] eqn:M.
      * destruct (JS.leading_numeral run) as [[ip fp]|] eqn:L.
        -- split.
           ++ intros H.
              assert (Hn : JS.leading_numeral run <> None) by congruence.
              apply PriceFacts.parseFloat_numeral in Hn as [Hn _].
              congruence.
           ++ intros (s' & run' & [= <-] & E & L').
              rewrite M in E. injection E as <-. congruence.
        -- rewrite (PriceFacts.parseFloat_no_numeral _ L).
           split; [|reflexivity]. intros _. exists s, run. auto.
      * split; [discriminate|].
        intros (s' & run' & [= <-] & E & _). congruence.
    + split; [discriminate|]. intros (s & run & E & _). discriminate E.
  - intros pre c rest Hpre Hc.
    rewrite PriceFacts.wizard_parsePrice_cases. unfold JS.match_numeric.
    rewrite (RunFacts.dropWhile_app _ _ Hpre).
    pose proof (RunFacts.digit_numch c Hc) as Hn.
    cbn [JS.dropWhile]. unfold JS.not_numch at 1. rewrite Hn. cbn [negb].
    apply PriceFacts.parseFloat_numeral.
    rewrite RunFacts.leading_numeral_run.
    now apply PriceFacts.digit_led_numeral.
  - intros t H. pose proof (PriceFacts.wizard_parsePrice_nn t) as Hn.
    apply PriceFacts.nn_cases in Hn as [Hn|Hn]; congruence.
Qed.

Lemma wizard_parsePrice_nan_iff_witness :
  is_nan (Wizard.parsePrice (Some ("from " ++ String "1" ".50 a month")))
  = false
  /\ (0 <=? Wizard.parsePrice (Some "$0.10")) = true.
Proof.
  destruct wizard_parsePrice_nan_iff as (_ & H2 & H3).
  split; [apply H2; reflexivity|apply H3; reflexivity].
Defined.

(** X12. With usage numbers that are not below zero and a strictly
    positive entry size, no cost of the summary is negative: the ingestion,
    indexed and add-on costs, the monthly total and the yearly figure are
    each not below zero, or [NaN]. *)
Theorem costs_not_negative (st : State) :
  (0 <=? ingestedLogsGB st) = true ->
  JS.gt0 (avgLogSizeKB st) = true ->
  (0 <=? indexingPercentage st) = true ->
  (0 <=? flexStarterEvents st) = true ->
  (0 <=? flexStorageEvents st) = true ->
  (0 <=? forwardingGB st) = true ->
  forall x,
    In x [ingestionCost st; indexedCost st; additionalCost st;
          totalMonthlyCost st; yearlyCost st] ->
    (0 <=? x) = true \/ is_nan x = true.
Proof.
  intros Hg Ha Hp H1 H2 H3 x Hx.
  destruct (CostSignFacts.costs_nn st Hg Ha Hp H1 H2 H3)
    as (Ci & Cx & Ca & Ct & Cy).
  apply PriceFacts.nn_cases.
  repeat (destruct Hx as [<-|Hx]; [assumption|]). destruct Hx.
Qed.

Lemma costs_not_negative_witness :
  (0 <=? totalMonthlyCost sample_all_on) = true
  \/ is_nan (totalMonthlyCost sample_all_on) = true.
Proof.
  apply (costs_not_negative sample_all_on); try reflexivity.
  cbn [In]. auto.
Defined.

(** X13. Outside the browser no tracking call does anything: whatever the
    calls and the state of the module, nothing is imported, nothing is
    logged, no action is sent, and [rumInstance] is left as it was. *)
Theorem tracking_off_server
    (calls : list (Rum.Call * Rum.Outcome))
    (rumInstance : option Rum.DatadogRum) :
  Rum.run false calls rumInstance = (rumInstance, []).
Proof.
  induction calls as [|[c o] l IH]; [reflexivity|].
  cbn [Rum.run]. rewrite RumFacts.call_getRum. cbn. now rewrite IH.
Qed.

(** X14. In the browser, for calls made one after the other from a fresh
    module: every call before the first whose import resolves imports, logs
    the warning and sends nothing; that first call imports once and sends
    its action; every later call sends its action without importing again.
    [rumInstance] is set exactly when some import resolved. *)
Theorem tracking_loads_once (calls : list (Rum.Call * Rum.Outcome)) :
  Rum.run true calls None
  = (match Rum.from_first_load calls with
     | [] => None
     | _ :: _ => Some Rum.datadogRum
     end,
     (flat_map
        (fun _ => [Rum.Import; Rum.Warn "Failed to load Datadog RUM:"])
        (Rum.failures calls)
      ++ match Rum.from_first_load calls with
         | [] => []
         | x :: rest =>
             Rum.Import
             :: map (fun y => Rum.action_of (fst y)) (x :: rest)
         end)%list).
Proof.
  induction calls as [|[c o] l IH]; [reflexivity|].
  cbn [Rum.run]. rewrite RumFacts.call_getRum. destruct o.
  - cbn. now rewrite RumFacts.run_loaded.
  - cbn. rewrite IH. reflexivity.
Qed.

(** X15. Once the package is loaded, calls made one after the other send
    exactly their actions, in order, one per call, and never import or
    warn, whatever an import would do; [rumInstance] is kept. *)
Theorem tracking_after_load
    (calls : list (Rum.Call * Rum.Outcome)) (r : Rum.DatadogRum) :
  Rum.run true calls (Some r)
  = (Some r, map (fun y => Rum.action_of (fst y)) calls).
Proof.
  induction calls as [|[c o] l IH]; [reflexivity|].
  cbn [Rum.run]. rewrite RumFacts.call_getRum. cbn. now rewrite IH.
Qed.
